(** * Trading-bot simulation core: indicators, positions, risk manager,
      strategy and backtester.

    The Python sources under [trading_bot/] are embedded as Rocq functions.
    Numbers (Python [float]/[int] values: prices, balances, quantities) are
    idealised as exact rationals [Q]; rounding is not modelled.  A Python
    exception is an explicit [Raise] result, and mutable objects are records
    passed from call to call.  A division by zero raises on Python numbers
    and goes on with an infinity or NaN on numpy scalars: the methods that
    divide take the kind of their numbers as an argument. *)

From Stdlib Require Import String QArith Qabs Lqa Lia ZArith List Bool Sorted.
Import ListNotations.
Open Scope Q_scope.

(** ** Python runtime: exceptions, comparisons, arithmetic *)

Inductive exn : Type :=
| ZeroDivisionError   (* [x / 0] on Python numbers *)
| IndexError          (* [iloc] out of bounds *)
| ValueError          (* pandas rejects [span < 1] *)
| NotANumber.         (* the code would go on with a NaN, which [Q] lacks *)

Inductive result (A : Type) : Type :=
| Ok (a : A)
| Raise (e : exn).
Arguments Ok {A} a.
Arguments Raise {A} e.

Definition bind {A B : Type} (r : result A) (k : A -> result B) : result B :=
  match r with
  | Ok a => k a
  | Raise e => Raise e
  end.

Notation "'do' x <- r ; k" := (bind r (fun x => k))
  (at level 10, x pattern, r at level 100, k at level 200).

Definition Qleb (a b : Q) : bool := Qle_bool a b.          (* a <= b *)
Definition Qltb (a b : Q) : bool := negb (Qle_bool b a).   (* a <  b *)
Definition Qeqb (a b : Q) : bool := Qeq_bool a b.          (* a == b *)

(** Python's [max(a, b)]: the first argument unless the second is greater. *)
Definition py_max (a b : Q) : Q := if Qltb a b then b else a.

(** Python's [a / b] on numbers. *)
Definition py_div (a b : Q) : result Q :=
  if Qeqb b 0 then Raise ZeroDivisionError else Ok (a / b).

(** The kind of numbers a method is called with.  [/] dispatches on it:
    Python's own [int] and [float] raise [ZeroDivisionError] on a zero
    divisor, whereas numpy scalars (the values read from a DataFrame, as in
    [Backtester.run], and all that is computed from them) give an infinity
    or NaN, with a warning, and the code goes on. *)
Inductive numbers : Type :=
| PythonNumbers
| NumpyScalars.

(** The value of a division: a number or, on numpy scalars, one of the
    non-finite floats. *)
Inductive quotient : Type :=
| Finite (q : Q)
| Infinity (positive : bool)     (* [inf] or [-inf] *)
| Nan.

(** [a / b] on the given kind of numbers.  On numpy scalars [a / 0] is NaN
    for [a = 0] and else the infinity of the sign of [a]: the zero divisor
    is the float [+0.0], the zero a balance or a price can be. *)
Definition div_on (kind : numbers) (a b : Q) : result quotient :=
  if Qeqb b 0 then
    match kind with
    | PythonNumbers => Raise ZeroDivisionError
    | NumpyScalars => Ok (if Qeqb a 0 then Nan else Infinity (Qltb 0 a))
    end
  else Ok (Finite (a / b)).

(** [x * 100]: infinities and NaN stay what they are. *)
Definition times100 (x : quotient) : quotient :=
  match x with
  | Finite q => Finite (q * 100)
  | _ => x
  end.

(** [x <= bound]: true for [-inf], false for [inf] and for NaN. *)
Definition quotient_leb (x : quotient) (bound : Q) : bool :=
  match x with
  | Finite q => Qleb q bound
  | Infinity positive => negb positive
  | Nan => false
  end.

(** ** config.py *)

Definition EMA_SHORT : Z := 20.
Definition EMA_LONG : Z := 50.
Definition ENTRY_PRICE_TOLERANCE : Q := 1 # 100.
Definition RISK_REWARD_RATIO : Q := 2.
Definition TRAILING_STOP_PERCENT : Q := 1 # 100.
Definition RISK_PER_TRADE : Q := 1 # 100.
Definition MAX_POSITIONS : nat := 3.
Definition MAX_DAILY_LOSS : Q := 3 # 100.
Definition INITIAL_BALANCE : Q := 10000.

(** ** Time stamps and candles *)

(** A [datetime] is a calendar date (a day number) and a time of day. *)
Record datetime : Type := mkDatetime { dt_date : Z; dt_seconds : Z }.

Record candle : Type := mkCandle {
  timestamp : datetime;
  c_open : Q;
  high : Q;
  low : Q;
  close : Q;
  volume : Q
}.

(** A row of the data frame once [add_emas] has attached the two columns. *)
Record row : Type := mkRow {
  r_candle : candle;
  ema_short : Q;
  ema_long : Q
}.

(** ** indicators.py *)

Module Indicators.

(** [data.ewm(span=period, adjust=False).mean()] of pandas:
    [y0 = x0] and [y_t = (1 - alpha) * y_(t-1) + alpha * x_t] with
    [alpha = 2 / (span + 1)]; pandas raises [ValueError] when [span < 1]. *)
Fixpoint ewm_from (alpha prev : Q) (xs : list Q) : list Q :=
  match xs with
  | [] => []
  | x :: rest =>
      let y := (1 - alpha) * prev + alpha * x in
      y :: ewm_from alpha y rest
  end.

Definition ewm_mean (alpha : Q) (xs : list Q) : list Q :=
  match xs with
  | [] => []
  | x0 :: rest => x0 :: ewm_from alpha x0 rest
  end.

Definition smoothing (period : Z) : Q := 2 / (inject_Z period + 1).

Definition calculate_ema (data : list Q) (period : Z) : result (list Q) :=
  if (period <? 1)%Z then Raise ValueError
  else Ok (ewm_mean (smoothing period) data).

Definition add_emas (df : list candle) (short_period long_period : Z)
  : result (list row) :=
  do es <- calculate_ema (map close df) short_period;
  do el <- calculate_ema (map close df) long_period;
  Ok (map (fun t => mkRow (fst t) (fst (snd t)) (snd (snd t)))
          (combine df (combine es el))).

(** [s.iloc[-k:]]: the last [k] items; the whole series when [k] is 0
    (as [-0] is 0) or exceeds its length. *)
Definition iloc_last {A : Type} (k : nat) (s : list A) : list A :=
  match k with
  | O => s
  | _ => skipn (length s - k) s
  end.

(** [Series.min()]: NaN on an empty series. *)
Fixpoint series_min_from (m : Q) (s : list Q) : Q :=
  match s with
  | [] => m
  | x :: rest => series_min_from (if Qltb x m then x else m) rest
  end.

Definition series_min (s : list Q) : result Q :=
  match s with
  | [] => Raise NotANumber
  | x :: rest => Ok (series_min_from x rest)
  end.

Definition find_swing_low (df : list row) (lookback : nat) : result Q :=
  let lookback := if (length df <? lookback)%nat then length df else lookback in
  series_min (map (fun r => low (r_candle r)) (iloc_last lookback df)).

Definition is_uptrend (ema_short ema_long : Q) : bool :=
  Qltb ema_long ema_short.

Definition is_price_near_ema (price ema tolerance : Q) : bool :=
  let upper_bound := ema * (1 + tolerance) in
  let lower_bound := ema * (1 - tolerance) in
  Qleb lower_bound price && Qleb price upper_bound.

End Indicators.

(** ** strategy.py *)

Record Position : Type := mkPosition {
  entry_price : Q;
  quantity : Q;
  stop_loss : Q;
  take_profit : Q;
  entry_time : datetime;
  trailing_stop_active : bool;
  highest_price : Q
}.

(** A closed-trade dictionary. *)
Record Trade : Type := mkTrade {
  t_entry_price : Q;
  t_exit_price : Q;
  t_quantity : Q;
  t_pnl : Q;
  t_pnl_percent : quotient;
  t_entry_time : datetime;
  t_exit_time : datetime;
  t_exit_reason : string
}.

Module Pos.

(** [Position.__init__] *)
Definition init (entry_price quantity stop_loss take_profit : Q)
    (entry_time : datetime) : Position :=
  mkPosition entry_price quantity stop_loss take_profit entry_time
             false entry_price.

Definition update_trailing_stop (self : Position)
    (current_price trailing_percent : Q) : Position :=
  if Qltb (entry_price self) current_price then
    let highest := py_max (highest_price self) current_price in
    let new_stop := highest * (1 - trailing_percent) in
    mkPosition (entry_price self) (quantity self)
               (py_max (stop_loss self) new_stop)
               (take_profit self) (entry_time self) true highest
  else self.

Definition should_exit (self : Position) (current_price : Q)
  : bool * string :=
  if Qleb current_price (stop_loss self) then (true, "Stop Loss"%string)
  else if Qleb (take_profit self) current_price
       then (true, "Take Profit"%string)
       else (false, ""%string).

Definition get_pnl (self : Position) (current_price : Q) : Q :=
  (current_price - entry_price self) * quantity self.

End Pos.

Record TradingStrategy : Type := mkStrategy {
  positions : list Position;
  closed_positions : list Trade
}.

(** [df.iloc[-1]] *)
Definition iloc_neg1 {A : Type} (df : list A) : result A :=
  match rev df with
  | [] => Raise IndexError
  | x :: _ => Ok x
  end.

Module Strategy.

Definition init : TradingStrategy := mkStrategy [] [].

Definition can_open_position (self : TradingStrategy) : bool :=
  (length (positions self) <? MAX_POSITIONS)%nat.

Definition check_entry_signal (self : TradingStrategy) (df : list row)
  : result bool :=
  if (Z.of_nat (length df) <? EMA_LONG)%Z then Ok false
  else
    do latest <- iloc_neg1 df;
    let current_price := close (r_candle latest) in
    let is_uptrend :=
      Indicators.is_uptrend (ema_short latest) (ema_long latest) in
    let is_near_ema :=
      Indicators.is_price_near_ema current_price (ema_short latest)
                                   ENTRY_PRICE_TOLERANCE in
    Ok (is_uptrend && is_near_ema).

Definition calculate_position_size
    (entry_price stop_loss account_balance risk_percent : Q) : Q :=
  let risk_amount := account_balance * risk_percent in
  let price_diff := Qabs (entry_price - stop_loss) in
  if Qeqb price_diff 0 then 0
  else risk_amount / price_diff.

(** Returns the position opened, if any, and the strategy afterwards. *)
Definition open_position (self : TradingStrategy)
    (entry_price account_balance risk_percent : Q) (df : list row)
    (entry_time : datetime) : result (option Position * TradingStrategy) :=
  if negb (can_open_position self) then Ok (None, self)
  else
    do swing <- Indicators.find_swing_low df 10;
    let stop_loss :=
      if Qleb entry_price swing then entry_price * (98 # 100) else swing in
    let risk := entry_price - stop_loss in
    let take_profit := entry_price + risk * RISK_REWARD_RATIO in
    let quantity :=
      calculate_position_size entry_price stop_loss account_balance
                              risk_percent in
    if Qleb quantity 0 then Ok (None, self)
    else
      let position :=
        Pos.init entry_price quantity stop_loss take_profit entry_time in
      Ok (Some position,
          mkStrategy (positions self ++ [position]) (closed_positions self)).

(** The body of the [for position in self.positions] loop, with the two
    local lists [closed] and [remaining_positions] as accumulators, on the
    given kind of numbers. *)
Fixpoint update_loop_on (kind : numbers) (todo : list Position)
    (current_price : Q) (current_time : datetime) (closed : list Trade)
    (remaining_positions : list Position)
  : result (list Trade * list Position) :=
  match todo with
  | [] => Ok (closed, remaining_positions)
  | position :: rest =>
      let position :=
        Pos.update_trailing_stop position current_price
                                 TRAILING_STOP_PERCENT in
      let (should_exit, reason) := Pos.should_exit position current_price in
      if should_exit then
        let pnl := Pos.get_pnl position current_price in
        do ratio <- div_on kind pnl
                           (entry_price position * quantity position);
        let closed_position :=
          mkTrade (entry_price position) current_price (quantity position)
                  pnl (times100 ratio) (entry_time position) current_time
                  reason in
        update_loop_on kind rest current_price current_time
                       (closed ++ [closed_position]) remaining_positions
      else
        update_loop_on kind rest current_price current_time closed
                       (remaining_positions ++ [position])
  end.

(** [update_positions] on the given kind of numbers. *)
Definition update_positions_on (kind : numbers) (self : TradingStrategy)
    (current_price : Q) (current_time : datetime)
  : result (list Trade * TradingStrategy) :=
  do cr <- update_loop_on kind (positions self) current_price current_time
                          [] [];
  Ok (fst cr, mkStrategy (snd cr) (closed_positions self ++ fst cr)).

(** [update_positions] called with Python numbers, as its signature has
    them. *)
Definition update_positions (self : TradingStrategy) (current_price : Q)
    (current_time : datetime) : result (list Trade * TradingStrategy) :=
  update_positions_on PythonNumbers self current_price current_time.

End Strategy.

(** ** risk_manager.py *)

(** The text of [halt_reason] and of the reason [can_trade] returns. *)
Inductive reason : Type :=
| NoReason                               (* the empty string *)
| DailyLossLimitReached (percent : quotient)
                                         (* "Daily loss limit reached: ..%" *)
| AccountBalanceDepleted.                (* "Account balance depleted" *)

Record RiskManager : Type := mkRiskManager {
  rm_initial_balance : Q;
  current_balance : Q;
  daily_start_balance : Q;
  daily_pnl : Q;
  current_date : Z;
  trading_halted : bool;
  halt_reason : reason
}.

(** The dictionary returned by [get_stats]. *)
Record Stats : Type := mkStats {
  s_initial_balance : Q;
  s_current_balance : Q;
  s_total_pnl : Q;
  s_total_return_percent : Q;
  s_daily_pnl : Q;
  s_daily_return_percent : Q;
  s_trading_halted : bool;
  s_halt_reason : reason
}.

(** [date.today()] reads the wall clock; every function that calls it takes
    the date read, [today], as an argument. *)
Module Risk.

Definition init (today : Z) (initial_balance : Q) : RiskManager :=
  mkRiskManager initial_balance initial_balance initial_balance 0 today
                false NoReason.

Definition reset_daily_tracking (today : Z) (self : RiskManager)
  : RiskManager :=
  mkRiskManager (rm_initial_balance self) (current_balance self)
                (current_balance self) 0 today false NoReason.

(** [check_daily_loss_limit] on the given kind of numbers.  Returns the
    flag the method returns and the manager afterwards. *)
Definition check_daily_loss_limit_on (kind : numbers) (self : RiskManager)
  : result (bool * RiskManager) :=
  do daily_loss_percent <- div_on kind (daily_pnl self)
                                       (daily_start_balance self);
  if quotient_leb daily_loss_percent (- MAX_DAILY_LOSS) then
    Ok (true,
        mkRiskManager (rm_initial_balance self) (current_balance self)
                      (daily_start_balance self) (daily_pnl self)
                      (current_date self) true
                      (DailyLossLimitReached (times100 daily_loss_percent)))
  else Ok (false, self).

(** [update_balance] on the given kind of numbers. *)
Definition update_balance_on (kind : numbers) (today : Z)
    (self : RiskManager) (pnl : Q) (current_time : datetime)
  : result RiskManager :=
  let self :=
    if negb (dt_date current_time =? current_date self)%Z
    then reset_daily_tracking today self else self in
  let self :=
    mkRiskManager (rm_initial_balance self) (current_balance self + pnl)
                  (daily_start_balance self) (daily_pnl self + pnl)
                  (current_date self) (trading_halted self)
                  (halt_reason self) in
  do r <- check_daily_loss_limit_on kind self;
  Ok (snd r).

(** The two methods called with Python numbers, as their signatures have
    them. *)
Definition check_daily_loss_limit (self : RiskManager)
  : result (bool * RiskManager) :=
  check_daily_loss_limit_on PythonNumbers self.

Definition update_balance (today : Z) (self : RiskManager) (pnl : Q)
    (current_time : datetime) : result RiskManager :=
  update_balance_on PythonNumbers today self pnl current_time.

Definition can_trade (self : RiskManager) : bool * reason :=
  if trading_halted self then (false, halt_reason self)
  else if Qleb (current_balance self) 0 then (false, AccountBalanceDepleted)
  else (true, NoReason).

Definition get_risk_amount (self : RiskManager) : Q :=
  current_balance self * RISK_PER_TRADE.

Definition get_stats (self : RiskManager) : result Stats :=
  let total_pnl := current_balance self - rm_initial_balance self in
  do ratio <- py_div total_pnl (rm_initial_balance self);
  let total_return := ratio * 100 in
  do daily_ratio <- py_div (daily_pnl self) (daily_start_balance self);
  Ok (mkStats (rm_initial_balance self) (current_balance self) total_pnl
              total_return (daily_pnl self) (daily_ratio * 100)
              (trading_halted self) (halt_reason self)).

End Risk.

(** The manager after a sequence of [update_balance] calls, each given as
    the clock date read during the call, the profit or loss and the time
    stamp. *)
Fixpoint update_all (self : RiskManager) (calls : list (Z * Q * datetime))
  : result RiskManager :=
  match calls with
  | [] => Ok self
  | (today, pnl, current_time) :: rest =>
      do self' <- Risk.update_balance today self pnl current_time;
      update_all self' rest
  end.

(** The sum of the profits and losses of a sequence of calls. *)
Definition pnl_total (calls : list (Z * Q * datetime)) : Q :=
  fold_right (fun c acc => snd (fst c) + acc) 0 calls.

(** ** backtester.py *)

Record Backtester : Type := mkBacktester {
  data : list candle;
  initial_balance : Q;
  strategy : TradingStrategy;
  risk_manager : RiskManager;
  trades_log : list Trade;
  equity_curve : list Q
}.

(** The metrics dictionary: keys in insertion order; counts are stored as
    numbers like every other value. *)
Definition metrics : Type := list (string * Q).

Fixpoint get (key : string) (m : metrics) : option Q :=
  match m with
  | [] => None
  | (k, v) :: rest => if String.eqb k key then Some v else get key rest
  end.

Definition Qlen {A : Type} (l : list A) : Q := inject_Z (Z.of_nat (length l)).

(** Python's [sum] of a generator of numbers. *)
Definition py_sum (l : list Q) : Q := fold_left Qplus l 0.

Module Backtest.

Definition init (today : Z) (data : list candle) (initial_balance : Q)
  : Backtester :=
  mkBacktester data initial_balance Strategy.init
               (Risk.init today initial_balance) [] [].

(** [np.maximum.accumulate] *)
Fixpoint maximum_accumulate_from (m : Q) (l : list Q) : list Q :=
  match l with
  | [] => []
  | x :: rest =>
      let m' := if Qltb m x then x else m in
      m' :: maximum_accumulate_from m' rest
  end.

Definition maximum_accumulate (l : list Q) : list Q :=
  match l with
  | [] => []
  | x :: rest => x :: maximum_accumulate_from x rest
  end.

(** [(equity_array - running_max) / running_max * 100], element by element;
    numpy does not raise on a zero divisor but yields inf or NaN. *)
Fixpoint drawdown_array (equity running_max : list Q) : result (list Q) :=
  match equity, running_max with
  | e :: es, m :: ms =>
      if Qeqb m 0 then Raise NotANumber
      else
        do rest <- drawdown_array es ms;
        Ok ((e - m) / m * 100 :: rest)
  | _, _ => Ok []
  end.

Definition calculate_max_drawdown (self : Backtester) : result Q :=
  match equity_curve self with
  | [] => Ok 0
  | _ =>
      let equity_array := equity_curve self in
      let running_max := maximum_accumulate equity_array in
      do drawdown <- drawdown_array equity_array running_max;
      do lowest <- Indicators.series_min drawdown;
      Ok (Qabs lowest)
  end.

Definition calculate_performance_metrics (self : Backtester)
  : result metrics :=
  match trades_log self with
  | [] =>
      Ok [ ("total_trades"%string, 0);
           ("win_rate"%string, 0);
           ("profit_factor"%string, 0);
           ("max_drawdown"%string, 0);
           ("final_balance"%string, initial_balance self);
           ("total_return"%string, 0);
           ("avg_win"%string, 0);
           ("avg_loss"%string, 0) ]
  | _ =>
      let winning_trades :=
        filter (fun t => Qltb 0 (t_pnl t)) (trades_log self) in
      let losing_trades :=
        filter (fun t => Qleb (t_pnl t) 0) (trades_log self) in
      let total_trades := Qlen (trades_log self) in
      do win_rate <-
        (if Qltb 0 total_trades then
           do r <- py_div (Qlen winning_trades) total_trades; Ok (r * 100)
         else Ok 0);
      let total_wins :=
        match winning_trades with
        | [] => 0
        | _ => py_sum (map t_pnl winning_trades)
        end in
      let total_losses :=
        match losing_trades with
        | [] => 0
        | _ => Qabs (py_sum (map t_pnl losing_trades))
        end in
      do profit_factor <-
        (if Qltb 0 total_losses then py_div total_wins total_losses
         else Ok 0);
      do avg_win <-
        (match winning_trades with
         | [] => Ok 0
         | _ => py_div total_wins (Qlen winning_trades)
         end);
      do avg_loss <-
        (match losing_trades with
         | [] => Ok 0
         | _ => py_div total_losses (Qlen losing_trades)
         end);
      do max_drawdown <- calculate_max_drawdown self;
      let final_balance := current_balance (risk_manager self) in
      do ret <- py_div (final_balance - initial_balance self)
                       (initial_balance self);
      let total_return := ret * 100 in
      Ok [ ("total_trades"%string, total_trades);
           ("winning_trades"%string, Qlen winning_trades);
           ("losing_trades"%string, Qlen losing_trades);
           ("win_rate"%string, win_rate);
           ("profit_factor"%string, profit_factor);
           ("max_drawdown"%string, max_drawdown);
           ("initial_balance"%string, initial_balance self);
           ("final_balance"%string, final_balance);
           ("total_return"%string, total_return);
           ("avg_win"%string, avg_win);
           ("avg_loss"%string, avg_loss);
           ("total_pnl"%string, final_balance - initial_balance self) ]
  end.

(** In [run] every price is a numpy scalar read from the DataFrame, and so
    are the quantities, the profits and the balances computed from them:
    the strategy and the risk manager are called on numpy scalars. *)

(** [for closed_pos in closed_positions]: report each closure to the risk
    manager and append it to the trade log. *)
Fixpoint report_closed (today : Z) (closed_positions : list Trade)
    (current_time : datetime) (rm : RiskManager) (log : list Trade)
  : result (RiskManager * list Trade) :=
  match closed_positions with
  | [] => Ok (rm, log)
  | closed_pos :: rest =>
      do rm' <- Risk.update_balance_on NumpyScalars today rm
                                       (t_pnl closed_pos) current_time;
      report_closed today rest current_time rm' (log ++ [closed_pos])
  end.

(** One iteration of the main loop of [run], at index [i]. *)
Definition tick (today : Z) (rows : list row) (i : nat) (current_candle : row)
    (self : Backtester) : result Backtester :=
  let current_price := close (r_candle current_candle) in
  let current_time := timestamp (r_candle current_candle) in
  let historical_df := firstn (S i) rows in
  do upd <- Strategy.update_positions_on NumpyScalars (strategy self)
                                         current_price current_time;
  let (closed_positions, strat) := upd in
  do rep <- report_closed today closed_positions current_time
                          (risk_manager self) (trades_log self);
  let (rm, log) := rep in
  let (can_trade, _) := Risk.can_trade rm in
  do strat' <-
    (if can_trade && (EMA_LONG <=? Z.of_nat i)%Z then
       do signal <- Strategy.check_entry_signal strat historical_df;
       if (signal : bool) then
         do opened <- Strategy.open_position strat current_price
                        (current_balance rm) RISK_PER_TRADE historical_df
                        current_time;
         Ok (snd opened)
       else Ok strat
     else Ok strat);
  Ok (mkBacktester (data self) (initial_balance self) strat' rm log
                   (equity_curve self ++ [current_balance rm])).

(** [for i in range(len(self.data))], from index [i] on. *)
Fixpoint run_loop (today : Z) (rows : list row) (todo : list row) (i : nat)
    (self : Backtester) : result Backtester :=
  match todo with
  | [] => Ok self
  | current_candle :: rest =>
      do self' <- tick today rows i current_candle self;
      run_loop today rows rest (S i) self'
  end.

(** [for position in self.strategy.positions] after the main loop. *)
Fixpoint close_remaining (today : Z) (open_positions : list Position)
    (final_price : Q) (final_time : datetime) (rm : RiskManager)
    (log : list Trade) : result (RiskManager * list Trade) :=
  match open_positions with
  | [] => Ok (rm, log)
  | position :: rest =>
      let pnl := Pos.get_pnl position final_price in
      do ratio <- div_on NumpyScalars pnl
                         (entry_price position * quantity position);
      let closed_pos :=
        mkTrade (entry_price position) final_price (quantity position) pnl
                (times100 ratio) (entry_time position) final_time
                "Backtest End"%string in
      do rm' <- Risk.update_balance_on NumpyScalars today rm pnl final_time;
      close_remaining today rest final_price final_time rm'
                      (log ++ [closed_pos])
  end.

(** The state of the backtester when [run] reaches its [return]. *)
Definition run_state (today : Z) (self : Backtester) : result Backtester :=
  do rows <- Indicators.add_emas (data self) EMA_SHORT EMA_LONG;
  do self <- run_loop today rows rows 0 self;
  do final <- iloc_neg1 rows;
  let final_price := close (r_candle final) in
  let final_time := timestamp (r_candle final) in
  do fin <- close_remaining today (positions (strategy self)) final_price
                            final_time (risk_manager self) (trades_log self);
  Ok (mkBacktester (data self) (initial_balance self)
                   (mkStrategy [] (closed_positions (strategy self)))
                   (fst fin) (snd fin) (equity_curve self)).

(** [run]: the metrics returned together with the backtester afterwards. *)
Definition run (today : Z) (self : Backtester)
  : result (metrics * Backtester) :=
  do self' <- run_state today self;
  do m <- calculate_performance_metrics self';
  Ok (m, self').

End Backtest.

(** ** bot.py *)

(** The part of the live bot that the trades change: its strategy and its
    risk manager. *)
Record TradingBot : Type := mkBot {
  bot_strategy : TradingStrategy;
  bot_risk_manager : RiskManager
}.

Module Bot.

(** The live price is a Python [float] and the history a DataFrame, so the
    numbers of a live tick are of either kind; the tick is given for each
    kind. *)

(** [for closed_pos in closed_positions] of [check_and_execute_trades]. *)
Fixpoint process_closed (kind : numbers) (today : Z)
    (closed_positions : list Trade) (current_time : datetime)
    (rm : RiskManager) : result RiskManager :=
  match closed_positions with
  | [] => Ok rm
  | closed_pos :: rest =>
      do rm' <- Risk.update_balance_on kind today rm (t_pnl closed_pos)
                                       current_time;
      process_closed kind today rest current_time rm'
  end.

Definition check_and_execute_trades (kind : numbers) (today : Z)
    (self : TradingBot) (df : list row) (current_price : Q)
    (current_time : datetime) : result TradingBot :=
  do upd <- Strategy.update_positions_on kind (bot_strategy self)
                                         current_price current_time;
  let (closed_positions, strat) := upd in
  do rm <- process_closed kind today closed_positions current_time
                          (bot_risk_manager self);
  let (can_trade, _) := Risk.can_trade rm in
  if negb can_trade then Ok (mkBot strat rm)
  else
    do signal <- Strategy.check_entry_signal strat df;
    if (signal : bool) then
      do opened <- Strategy.open_position strat current_price
                     (current_balance rm) RISK_PER_TRADE df current_time;
      Ok (mkBot (snd opened) rm)
    else Ok (mkBot strat rm).

End Bot.

(** ** Concrete inputs used by the examples below *)

(** The position of the test suite. *)
Definition test_position : Position :=
  Pos.init 50000 (1 # 10) 49000 52000 (mkDatetime 0 0).

(** A candle at minute [minute] of day [day] that opens, tops and closes at
    [cl] and bottoms at [lo]. *)
Definition bar (day minute : Z) (lo cl : Q) : candle :=
  mkCandle (mkDatetime day (minute * 60)) cl cl lo cl 1000.

(** [n] one-minute candles at the constant price [p], from [minute] on. *)
Fixpoint flat (n : nat) (day minute : Z) (p : Q) : list candle :=
  match n with
  | O => []
  | S k => bar day minute p p :: flat k day (minute + 1) p
  end.

(** Fifty flat candles at 100, then two rising ones: a position is opened on
    each of the last two candles and both are still open at the end. *)
Definition rising_candles : list candle :=
  flat 50 100 0 100 ++
  [ bar 100 50 (199 # 2) (201 # 2); bar 100 51 (199 # 2) 101 ].

(** Fifty flat candles at 100, three candles at 100.5 on each of which a
    position of 100 units is opened with its stop at 99.5, then a fall to
    50.5 that closes the three positions at a loss of 5000 each. *)
Definition crash_candles : list candle :=
  flat 50 100 0 100 ++
  [ bar 100 50 (199 # 2) (201 # 2); bar 100 51 (199 # 2) (201 # 2);
    bar 100 52 (199 # 2) (201 # 2); bar 100 53 (101 # 2) (101 # 2) ].

(** The states after each of a sequence of [update_trailing_stop] calls,
    given as (price, trailing percent) pairs, the initial state first. *)
Fixpoint trailing_trace (p : Position) (calls : list (Q * Q))
  : list Position :=
  match calls with
  | [] => [p]
  | (price, percent) :: rest =>
      p :: trailing_trace (Pos.update_trailing_stop p price percent) rest
  end.

(** [m] is the least element of [l]. *)
Definition is_minimum (m : Q) (l : list Q) : Prop :=
  In m l /\ Forall (fun x => m <= x) l.

(** Three rows with lows 97, 95 and 96. *)
Definition three_rows : list row :=
  [ mkRow (bar 100 0 97 100) 100 100;
    mkRow (bar 100 1 95 100) 100 100;
    mkRow (bar 100 2 96 100) 100 100 ].

(** Two time stamps of day 100, and one of day 101. *)
Definition morning : datetime := mkDatetime 100 36000.
Definition noon : datetime := mkDatetime 100 43200.
Definition next_day : datetime := mkDatetime 101 36000.

(** The figures of a trade log in the words of the specification: a winner
    is a trade with [pnl > 0]; every other trade is a loser. *)
Fixpoint winners (log : list Trade) : nat :=
  match log with
  | [] => 0
  | t :: rest => (if Qltb 0 (t_pnl t) then 1 else 0) + winners rest
  end.

Fixpoint winning_sum (log : list Trade) : Q :=
  match log with
  | [] => 0
  | t :: rest => (if Qltb 0 (t_pnl t) then t_pnl t else 0) + winning_sum rest
  end.

Fixpoint losing_sum (log : list Trade) : Q :=
  match log with
  | [] => 0
  | t :: rest => (if Qltb 0 (t_pnl t) then 0 else t_pnl t) + losing_sum rest
  end.

(** A trade of the given profit or loss, and a log of three trades. *)
Definition trade_of (pnl : Q) : Trade :=
  mkTrade 100 (100 + pnl) 1 pnl (Finite pnl) morning noon
          "Take Profit"%string.

Definition three_trades : list Trade :=
  [ trade_of 30; trade_of 0; trade_of (-20) ].

(** A backtester holding [three_trades] and a four-point equity curve. *)
Definition sample_backtester : Backtester :=
  mkBacktester [] 10000 Strategy.init
               (mkRiskManager 10000 10010 10000 10 100 false NoReason)
               three_trades [10000; 10030; 10030; 10010].

(** The closed-trade record [t] is the one [update_positions] writes for the
    position [q], already trailed, when it exits at [price] and [time]. *)
Definition closes (price : Q) (time : datetime) (q : Position) (t : Trade)
  : Prop :=
  t_entry_price t = entry_price q /\
  t_exit_price t = price /\
  t_quantity t = quantity q /\
  t_pnl t = Pos.get_pnl q price /\
  (exists percent,
     t_pnl_percent t = Finite percent /\
     percent == Pos.get_pnl q price / (entry_price q * quantity q) * 100) /\
  t_entry_time t = entry_time q /\
  t_exit_time t = time /\
  t_exit_reason t = snd (Pos.should_exit q price).

(** The same on the given kind of numbers: the percentage recorded is
    what the division gives on that kind. *)
Definition closes_on (kind : numbers) (price : Q) (time : datetime)
    (q : Position) (t : Trade) : Prop :=
  t_entry_price t = entry_price q /\
  t_exit_price t = price /\
  t_quantity t = quantity q /\
  t_pnl t = Pos.get_pnl q price /\
  (exists ratio,
     div_on kind (Pos.get_pnl q price) (entry_price q * quantity q)
     = Ok ratio /\
     t_pnl_percent t = times100 ratio) /\
  t_entry_time t = entry_time q /\
  t_exit_time t = time /\
  t_exit_reason t = snd (Pos.should_exit q price).

(** Trade [t] records the closure of position [q] at the end of a
    backtest, at [price] and [time], on the numpy scalars of the run. *)
Definition closes_at_end (price : Q) (time : datetime) (q : Position)
    (t : Trade) : Prop :=
  t_entry_price t = entry_price q /\
  t_exit_price t = price /\
  t_quantity t = quantity q /\
  t_pnl t = Pos.get_pnl q price /\
  (exists ratio,
     div_on NumpyScalars (Pos.get_pnl q price) (entry_price q * quantity q)
     = Ok ratio /\
     t_pnl_percent t = times100 ratio) /\
  t_entry_time t = entry_time q /\
  t_exit_time t = time /\
  t_exit_reason t = "Backtest End"%string.

(** The positions of a tick at [price] once their stops are trailed, and
    the test that selects those that exit. *)
Definition trailed (price : Q) (ps : list Position) : list Position :=
  map (fun p => Pos.update_trailing_stop p price TRAILING_STOP_PERCENT) ps.

Definition exits (price : Q) (q : Position) : bool :=
  fst (Pos.should_exit q price).

(** A strategy holding the position of the test suite and a later one. *)
Definition two_positions : TradingStrategy :=
  mkStrategy [ test_position; Pos.init 52000 (1 # 10) 51000 54000 morning ]
             [].

(** What the main loop of a backtest started with the balance [start]
    keeps true of its state: the trade log is the strategy's closed log, at
    most [MAX_POSITIONS] positions are open, and the balance is the start
    balance plus the profits and losses logged. *)
Definition loop_invariant (start : Q) (s : Backtester) : Prop :=
  trades_log s = closed_positions (strategy s) /\
  (length (positions (strategy s)) <= MAX_POSITIONS)%nat /\
  current_balance (risk_manager s)
  == start + py_sum (map t_pnl (trades_log s)).

(** Fifty flat candles at 100, an entry at 100.5 and a rise to 103, above
    the target 102.5 of the position: it is closed with a profit of 250. *)
Definition profit_candles : list candle :=
  flat 50 100 0 100 ++
  [ bar 100 50 (199 # 2) (201 # 2); bar 100 51 (201 # 2) 103 ].

(** The rows of [profit_candles]. *)
Definition profit_rows : list row :=
  match Indicators.add_emas profit_candles EMA_SHORT EMA_LONG with
  | Ok rows => rows
  | Raise _ => []
  end.

(** ** Properties of the runtime helpers *)

(** Decides a comparison between two closed rationals. *)
Ltac qcompare := vm_compute; first [reflexivity | discriminate].

Lemma Qleb_spec a b : Qleb a b = true <-> a <= b.
Proof. apply Qle_bool_iff. Qed.

Lemma Qleb_false a b : Qleb a b = false <-> b < a.
Proof.
  unfold Qleb. split; intro H.
  - apply Qnot_le_lt. intro Hle. apply Qle_bool_iff in Hle. congruence.
  - destruct (Qle_bool a b) eqn:E; [|reflexivity].
    apply Qle_bool_iff in E. lra.
Qed.

Lemma Qltb_spec a b : Qltb a b = true <-> a < b.
Proof.
  unfold Qltb. rewrite negb_true_iff. apply (Qleb_false b a).
Qed.

Lemma Qltb_false a b : Qltb a b = false <-> b <= a.
Proof.
  unfold Qltb. rewrite negb_false_iff. apply Qle_bool_iff.
Qed.

Lemma Qeqb_spec a b : Qeqb a b = true <-> a == b.
Proof. apply Qeq_bool_iff. Qed.

Lemma Qeqb_false a b : Qeqb a b = false <-> ~ a == b.
Proof.
  unfold Qeqb. split; intro H.
  - intro E. apply Qeq_bool_iff in E. congruence.
  - destruct (Qeq_bool a b) eqn:E; [|reflexivity].
    apply Qeq_bool_iff in E. contradiction.
Qed.

Lemma py_max_ge_l a b : a <= py_max a b.
Proof.
  unfold py_max. destruct (Qltb a b) eqn:E.
  - apply Qltb_spec in E. lra.
  - lra.
Qed.

Lemma py_max_ge_r a b : b <= py_max a b.
Proof.
  unfold py_max. destruct (Qltb a b) eqn:E.
  - lra.
  - apply Qltb_false in E. exact E.
Qed.

(** ** Indicators *)

(** C3 as stated fails for a negative level: the two bounds swap. *)
Lemma is_price_near_ema_negative_level :
  0 <= 1 # 2 /\ Indicators.is_price_near_ema (-1) (-1) (1 # 2) = false.
Proof. split; [lra | reflexivity]. Qed.

(** C3 (amended): for every level [ema >= 0] and tolerance [t >= 0], the
    level itself and both boundary prices [ema * (1 - t)] and
    [ema * (1 + t)] are near the level. *)
Theorem is_price_near_ema_inclusive (ema t : Q) :
  0 <= ema -> 0 <= t ->
  Indicators.is_price_near_ema ema ema t = true /\
  Indicators.is_price_near_ema (ema * (1 - t)) ema t = true /\
  Indicators.is_price_near_ema (ema * (1 + t)) ema t = true.
Proof.
  intros He Ht. unfold Indicators.is_price_near_ema.
  assert (Hp : 0 <= ema * t) by (apply Qmult_le_0_compat; assumption).
  repeat split; apply andb_true_iff; split; apply Qleb_spec; lra.
Qed.

Lemma is_price_near_ema_inclusive_witness :
  Indicators.is_price_near_ema 100 100 (1 # 100) = true /\
  Indicators.is_price_near_ema (100 * (1 - (1 # 100))) 100 (1 # 100) = true /\
  Indicators.is_price_near_ema (100 * (1 + (1 # 100))) 100 (1 # 100) = true.
Proof. apply (is_price_near_ema_inclusive 100 (1 # 100)); lra. Defined.

Lemma ewm_from_length (alpha : Q) (xs : list Q) :
  forall prev, length (Indicators.ewm_from alpha prev xs) = length xs.
Proof.
  induction xs as [|x rest IH]; intro prev; simpl.
  - reflexivity.
  - now rewrite IH.
Qed.

Lemma ewm_from_nth (alpha : Q) (xs : list Q) :
  forall prev j, (j < length xs)%nat ->
    nth j (Indicators.ewm_from alpha prev xs) 0 =
    (1 - alpha) * nth j (prev :: Indicators.ewm_from alpha prev xs) 0
    + alpha * nth j xs 0.
Proof.
  induction xs as [|x rest IH]; intros prev j Hj; simpl in Hj.
  - lia.
  - destruct j as [|j'].
    + reflexivity.
    + cbn [Indicators.ewm_from nth]. apply IH. lia.
Qed.

(** C7: on a non-empty series and a period [> 0], [calculate_ema] returns a
    series of the same length whose first value is the first price and whose
    value at [i > 0] is [s * price[i] + (1 - s) * value[i-1]], with
    [s = 2 / (period + 1)]. *)
Theorem calculate_ema_recurrence (prices : list Q) (period : Z) :
  prices <> [] -> (0 < period)%Z ->
  exists values,
    Indicators.calculate_ema prices period = Ok values /\
    length values = length prices /\
    nth 0 values 0 = nth 0 prices 0 /\
    forall i, (0 < i < length prices)%nat ->
      nth i values 0 ==
      2 / (inject_Z period + 1) * nth i prices 0
      + (1 - 2 / (inject_Z period + 1)) * nth (i - 1) values 0.
Proof.
  intros Hne Hp. destruct prices as [|x0 rest]; [congruence|].
  unfold Indicators.calculate_ema.
  destruct (period <? 1)%Z eqn:E; [apply Z.ltb_lt in E; lia|].
  eexists. split; [reflexivity|]. cbn [Indicators.ewm_mean].
  split; [cbn [length]; now rewrite ewm_from_length|].
  split; [reflexivity|].
  intros i [Hi0 Hi]. destruct i as [|j]; [lia|].
  cbn [length] in Hi.
  replace (S j - 1)%nat with j by lia.
  change (nth (S j) (x0 :: rest) 0) with (nth j rest 0).
  change (nth (S j) (x0 :: ?l) 0) with (nth j l 0).
  rewrite ewm_from_nth by lia.
  unfold Indicators.smoothing. ring.
Qed.

Lemma calculate_ema_recurrence_witness :
  exists values,
    Indicators.calculate_ema [10; 20; 40] 3 = Ok values /\
    length values = length [10; 20; 40] /\
    nth 0 values 0 = nth 0 [10; 20; 40] 0 /\
    forall i, (0 < i < length [10; 20; 40])%nat ->
      nth i values 0 ==
      2 / (inject_Z 3 + 1) * nth i [10; 20; 40] 0
      + (1 - 2 / (inject_Z 3 + 1)) * nth (i - 1) values 0.
Proof.
  apply (calculate_ema_recurrence [10; 20; 40] 3); [discriminate | lia].
Defined.

(** The values on that series: 10, 15 and 27.5. *)
Example calculate_ema_three :
  exists values,
    Indicators.calculate_ema [10; 20; 40] 3 = Ok values /\
    Forall2 Qeq values [10; 15; 55 # 2].
Proof.
  eexists. split; [reflexivity|].
  repeat constructor; vm_compute; reflexivity.
Qed.

(** ** Positions *)

Lemma update_trailing_stop_step (p : Position) (price percent : Q) :
  stop_loss p <= stop_loss (Pos.update_trailing_stop p price percent).
Proof.
  unfold Pos.update_trailing_stop.
  destruct (Qltb (entry_price p) price); cbn [stop_loss].
  - apply py_max_ge_l.
  - lra.
Qed.

(** Every state of the trace has a stop at or above the initial one. *)
Lemma trailing_trace_above (calls : list (Q * Q)) :
  forall p, Forall (fun q => stop_loss p <= stop_loss q)
                   (trailing_trace p calls).
Proof.
  induction calls as [|[price percent] rest IH]; intro p; simpl.
  - constructor; [lra | constructor].
  - constructor; [lra|].
    eapply Forall_impl; [|apply IH]. cbn beta. intros q Hq.
    pose proof (update_trailing_stop_step p price percent). lra.
Qed.

(** C5: along any sequence of [update_trailing_stop] calls, whatever the
    prices and trailing percents, the stop after a call is at least the stop
    before it, so the stops of the successive states never decrease. *)
Theorem trailing_stop_never_decreases (p : Position) (calls : list (Q * Q)) :
  StronglySorted (fun a b => stop_loss a <= stop_loss b)
                 (trailing_trace p calls).
Proof.
  revert p. induction calls as [|[price percent] rest IH]; intro p; simpl.
  - repeat constructor.
  - constructor; [apply IH|].
    eapply Forall_impl; [|apply trailing_trace_above]. cbn beta.
    intros q Hq.
    pose proof (update_trailing_stop_step p price percent). lra.
Qed.

(** The stop ratchets: 49000, 50490 at 51000, 51480 at 52000, and it stays
    at 51480 when the price falls back to 51000. *)
Example trailing_stop_ratchet :
  Forall2 Qeq
    (map stop_loss
       (trailing_trace test_position
          [(49500, 1 # 100); (51000, 1 # 100); (52000, 1 # 100);
           (51000, 1 # 100)]))
    [49000; 49000; 50490; 51480; 51480].
Proof. repeat constructor; vm_compute; reflexivity. Qed.

(** C6: [should_exit] answers "Stop Loss" when the price is at or below the
    stop, else "Take Profit" when it is at or above the target, else no
    exit; when both tests hold the stop-loss answer is given. *)
Theorem should_exit_cases (p : Position) (price : Q) :
  (price <= stop_loss p ->
   Pos.should_exit p price = (true, "Stop Loss"%string)) /\
  (stop_loss p < price -> take_profit p <= price ->
   Pos.should_exit p price = (true, "Take Profit"%string)) /\
  (stop_loss p < price -> price < take_profit p ->
   Pos.should_exit p price = (false, ""%string)).
Proof.
  unfold Pos.should_exit. repeat split; intros.
  - assert (E : Qleb price (stop_loss p) = true) by now apply Qleb_spec.
    now rewrite E.
  - assert (E : Qleb price (stop_loss p) = false) by now apply Qleb_false.
    assert (F : Qleb (take_profit p) price = true) by now apply Qleb_spec.
    now rewrite E, F.
  - assert (E : Qleb price (stop_loss p) = false) by now apply Qleb_false.
    assert (F : Qleb (take_profit p) price = false) by now apply Qleb_false.
    now rewrite E, F.
Qed.

Lemma should_exit_cases_witness :
  Pos.should_exit test_position 48900 = (true, "Stop Loss"%string) /\
  Pos.should_exit test_position 52100 = (true, "Take Profit"%string) /\
  Pos.should_exit test_position 50500 = (false, ""%string).
Proof.
  split; [|split].
  - apply (should_exit_cases test_position 48900). qcompare.
  - apply (should_exit_cases test_position 52100); qcompare.
  - apply (should_exit_cases test_position 50500); qcompare.
Defined.

(** A position whose target lies below its stop: at a price between the two
    both tests hold and the answer is "Stop Loss". *)
Example should_exit_tie_break :
  let p := mkPosition 100 1 105 102 (mkDatetime 0 0) false 100 in
  103 <= stop_loss p /\ take_profit p <= 103 /\
  Pos.should_exit p 103 = (true, "Stop Loss"%string).
Proof. cbn. repeat split; qcompare. Qed.

(** ** Opening a position *)

Lemma series_min_from_spec (s : list Q) :
  forall m,
    In (Indicators.series_min_from m s) (m :: s) /\
    Indicators.series_min_from m s <= m /\
    Forall (fun x => Indicators.series_min_from m s <= x) s.
Proof.
  induction s as [|x rest IH]; intro m; cbn [Indicators.series_min_from].
  - repeat split; [now left | lra | constructor].
  - destruct (IH (if Qltb x m then x else m)) as (Hin & Hle & Hall).
    destruct (Qltb x m) eqn:E.
    + apply Qltb_spec in E. repeat split.
      * destruct Hin as [<- | Hin]; [right; now left | right; now right].
      * lra.
      * constructor; assumption.
    + apply Qltb_false in E. repeat split.
      * destruct Hin as [<- | Hin]; [now left | right; now right].
      * assumption.
      * constructor; [lra | assumption].
Qed.

Lemma series_min_spec (s : list Q) :
  s <> [] -> exists m, Indicators.series_min s = Ok m /\ is_minimum m s.
Proof.
  destruct s as [|x rest]; [congruence|]. intros _.
  exists (Indicators.series_min_from x rest). split; [reflexivity|].
  destruct (series_min_from_spec rest x) as (Hin & Hle & Hall).
  split; [assumption | constructor; assumption].
Qed.

Lemma iloc_last_skipn {A : Type} (k : nat) (s : list A) :
  (0 < k)%nat -> Indicators.iloc_last k s = skipn (length s - k) s.
Proof. destruct k; [lia | reflexivity]. Qed.

(** On a non-empty frame the swing low is the least low of its last
    [min lookback (length df)] rows, for a positive [lookback]. *)
Lemma find_swing_low_spec (df : list row) (lookback : nat) :
  df <> [] -> (0 < lookback)%nat ->
  exists older window swing,
    df = older ++ window /\
    length window = Nat.min lookback (length df) /\
    Indicators.find_swing_low df lookback = Ok swing /\
    is_minimum swing (map (fun r => low (r_candle r)) window).
Proof.
  intros Hne Hk.
  assert (Hlen : (0 < length df)%nat)
    by (destruct df; [congruence | cbn; lia]).
  set (k := Nat.min lookback (length df)).
  exists (firstn (length df - k) df), (skipn (length df - k) df).
  assert (Hw : length (skipn (length df - k) df) = k)
    by (rewrite length_skipn; subst k; lia).
  destruct (series_min_spec
              (map (fun r => low (r_candle r)) (skipn (length df - k) df)))
    as (swing & Hs & Hmin).
  { intro E. apply (f_equal (@length Q)) in E.
    rewrite length_map, Hw in E. cbn in E. subst k. lia. }
  exists swing. split; [now rewrite firstn_skipn|].
  split; [exact Hw|]. split; [|exact Hmin].
  unfold Indicators.find_swing_low.
  destruct (length df <? lookback)%nat eqn:E.
  - apply Nat.ltb_lt in E. rewrite iloc_last_skipn by exact Hlen.
    replace k with (length df) in Hs by (subst k; lia). exact Hs.
  - apply Nat.ltb_ge in E. rewrite iloc_last_skipn by exact Hk.
    replace k with lookback in Hs by (subst k; lia). exact Hs.
Qed.

Lemma Qabs_zero_iff (x : Q) : Qabs x == 0 <-> x == 0.
Proof.
  split; intro H.
  - revert H. apply Qabs_case; intros; lra.
  - rewrite H. reflexivity.
Qed.

(** C8: [open_position] declines when [MAX_POSITIONS] are open.  Otherwise,
    on a non-empty history, the stop is the least low of the last
    [min 10 (length df)] rows, or [entry * 0.98] when that low is not below
    the entry; the call declines when the price distance is zero or the
    size [balance * risk / |entry - stop|] is not positive, and else
    registers a position with that stop, that size and the target
    [entry + (entry - stop) * RISK_REWARD_RATIO]. *)
Theorem open_position_spec (self : TradingStrategy)
    (entry balance risk_percent : Q) (df : list row) (time : datetime) :
  df <> [] ->
  ((MAX_POSITIONS <= length (positions self))%nat ->
   Strategy.open_position self entry balance risk_percent df time
   = Ok (None, self)) /\
  ((length (positions self) < MAX_POSITIONS)%nat ->
   exists older window swing stop,
     df = older ++ window /\
     length window = Nat.min 10 (length df) /\
     is_minimum swing (map (fun r => low (r_candle r)) window) /\
     (swing < entry -> stop = swing) /\
     (entry <= swing -> stop = entry * (98 # 100)) /\
     let size := balance * risk_percent / Qabs (entry - stop) in
     (entry - stop == 0 \/ size <= 0 ->
      Strategy.open_position self entry balance risk_percent df time
      = Ok (None, self)) /\
     (~ entry - stop == 0 -> 0 < size ->
      exists p,
        Strategy.open_position self entry balance risk_percent df time
        = Ok (Some p,
              mkStrategy (positions self ++ [p]) (closed_positions self)) /\
        entry_price p = entry /\
        stop_loss p = stop /\
        take_profit p == entry + (entry - stop) * RISK_REWARD_RATIO /\
        quantity p == size /\
        entry_time p = time /\
        trailing_stop_active p = false /\
        highest_price p = entry)).
Proof.
  intro Hne. unfold Strategy.open_position, Strategy.can_open_position.
  split; intro Hn.
  - apply Nat.ltb_ge in Hn. now rewrite Hn.
  - apply Nat.ltb_lt in Hn. rewrite Hn. cbn [negb].
    destruct (find_swing_low_spec df 10 Hne) as
      (older & window & swing & Hdf & Hlen & Hs & Hmin); [lia|].
    rewrite Hs. cbn [bind].
    set (stop := if Qleb entry swing then entry * (98 # 100) else swing).
    exists older, window, swing, stop.
    split; [exact Hdf|]. split; [exact Hlen|]. split; [exact Hmin|].
    split.
    { intro H. subst stop. apply Qleb_false in H. now rewrite H. }
    split.
    { intro H. subst stop. apply Qleb_spec in H. now rewrite H. }
    cbn zeta. unfold Strategy.calculate_position_size.
    split.
    + intros [Hz | Hsz].
      * assert (E : Qeqb (Qabs (entry - stop)) 0 = true)
          by (apply Qeqb_spec, Qabs_zero_iff, Hz).
        rewrite E. reflexivity.
      * destruct (Qeqb (Qabs (entry - stop)) 0); [reflexivity|].
        apply Qleb_spec in Hsz. now rewrite Hsz.
    + intros Hnz Hsz.
      assert (E : Qeqb (Qabs (entry - stop)) 0 = false).
      { apply Qeqb_false. intro H. apply Hnz, Qabs_zero_iff, H. }
      rewrite E. apply Qleb_false in Hsz. rewrite Hsz.
      eexists. split; [reflexivity|]. cbn.
      repeat split; reflexivity.
Qed.

Lemma open_position_spec_witness :
  exists older window swing stop,
    three_rows = older ++ window /\
    length window = Nat.min 10 (length three_rows) /\
    is_minimum swing (map (fun r => low (r_candle r)) window) /\
    (swing < 100 -> stop = swing) /\
    (100 <= swing -> stop = 100 * (98 # 100)) /\
    let size := 10000 * (1 # 100) / Qabs (100 - stop) in
    (100 - stop == 0 \/ size <= 0 ->
     Strategy.open_position Strategy.init 100 10000 (1 # 100) three_rows
                            (mkDatetime 100 120)
     = Ok (None, Strategy.init)) /\
    (~ 100 - stop == 0 -> 0 < size ->
     exists p,
       Strategy.open_position Strategy.init 100 10000 (1 # 100) three_rows
                              (mkDatetime 100 120)
       = Ok (Some p,
             mkStrategy (positions Strategy.init ++ [p])
                        (closed_positions Strategy.init)) /\
       entry_price p = 100 /\
       stop_loss p = stop /\
       take_profit p == 100 + (100 - stop) * RISK_REWARD_RATIO /\
       quantity p == size /\
       entry_time p = mkDatetime 100 120 /\
       trailing_stop_active p = false /\
       highest_price p = 100).
Proof.
  destruct (open_position_spec Strategy.init 100 10000 (1 # 100) three_rows
                               (mkDatetime 100 120)) as [_ H].
  - discriminate.
  - apply H. unfold MAX_POSITIONS. simpl. lia.
Defined.

(** On those rows: stop 95, target 110 and 20 units for a risk of 100. *)
Example open_position_three_rows :
  exists p,
    Strategy.open_position Strategy.init 100 10000 (1 # 100) three_rows
                           (mkDatetime 100 120)
    = Ok (Some p, mkStrategy [p] []) /\
    stop_loss p == 95 /\ take_profit p == 110 /\ quantity p == 20.
Proof.
  eexists. split; [reflexivity|]. repeat split; vm_compute; reflexivity.
Qed.

(** With the lows at the entry price the stop falls back to 98 = 100 * 0.98;
    with an entry price of 0 the distance is zero and nothing is opened. *)
Example open_position_fallbacks :
  (exists p,
     Strategy.open_position Strategy.init 95 10000 (1 # 100) three_rows
                            (mkDatetime 100 120)
     = Ok (Some p, mkStrategy [p] []) /\
     stop_loss p == 95 * (98 # 100)) /\
  Strategy.open_position Strategy.init 0 10000 (1 # 100) three_rows
                         (mkDatetime 100 120)
  = Ok (None, Strategy.init).
Proof.
  split; [|reflexivity].
  eexists. split; [reflexivity|]. vm_compute. reflexivity.
Qed.

(** ** Risk manager *)

(** An update stamped with the stored date performs no reset and keeps a
    halt in place. *)
Lemma update_balance_same_date (today : Z) (self rm : RiskManager) (pnl : Q)
    (t : datetime) :
  dt_date t = current_date self ->
  Risk.update_balance today self pnl t = Ok rm ->
  daily_start_balance rm = daily_start_balance self /\
  daily_pnl rm = daily_pnl self + pnl /\
  current_date rm = current_date self /\
  (trading_halted self = true -> trading_halted rm = true).
Proof.
  intros Hd. unfold Risk.update_balance, Risk.update_balance_on,
    Risk.check_daily_loss_limit_on.
  rewrite Hd, Z.eqb_refl. cbn [negb].
  cbn [daily_pnl daily_start_balance rm_initial_balance current_balance
       current_date trading_halted halt_reason].
  destruct (div_on PythonNumbers (daily_pnl self + pnl)
                   (daily_start_balance self))
    as [pct|e]; cbn [bind]; [|discriminate].
  destruct (quotient_leb pct (- MAX_DAILY_LOSS)); cbn [snd]; intro H;
    injection H as <-; cbn; auto.
Qed.

(** The stored date is only ever the wall-clock date: an update stamped
    with any other date resets the daily figures, again and again. *)
Lemma update_balance_other_date (today : Z) (self rm : RiskManager) (pnl : Q)
    (t : datetime) :
  current_date self = today -> dt_date t <> today ->
  Risk.update_balance today self pnl t = Ok rm ->
  current_date rm = today /\
  daily_start_balance rm = current_balance self /\
  daily_pnl rm = 0 + pnl.
Proof.
  intros Hc Hd. unfold Risk.update_balance, Risk.update_balance_on,
    Risk.check_daily_loss_limit_on.
  rewrite Hc. apply Z.eqb_neq in Hd. rewrite Hd. cbn [negb].
  unfold Risk.reset_daily_tracking.
  cbn [daily_pnl daily_start_balance rm_initial_balance current_balance
       current_date trading_halted halt_reason].
  destruct (div_on PythonNumbers (0 + pnl) (current_balance self))
    as [pct|e]; cbn [bind]; [|discriminate].
  destruct (quotient_leb pct (- MAX_DAILY_LOSS)); cbn [snd]; intro H;
    injection H as <-; cbn; auto.
Qed.

(** C1 fails on the code: [reset_daily_tracking] stores the wall-clock date,
    not the date of the update.  With the clock at day 200 and two updates
    stamped on day 100, the first (-300) halts trading; the second (-10),
    on the same date, resets again: the day's start balance becomes 9700,
    the daily figure -10, and the halt is gone. *)
Theorem daily_reset_repeats_on_same_date :
  dt_date morning = dt_date noon /\
  exists rm1 rm2,
    Risk.update_balance 200 (Risk.init 200 10000) (-300) morning = Ok rm1 /\
    trading_halted rm1 = true /\
    daily_start_balance rm1 == 10000 /\
    Risk.update_balance 200 rm1 (-10) noon = Ok rm2 /\
    trading_halted rm2 = false /\
    daily_start_balance rm2 == 9700 /\
    daily_pnl rm2 == -10 /\
    fst (Risk.can_trade rm2) = true.
Proof.
  split; [reflexivity|].
  eexists. eexists.
  split; [vm_compute; reflexivity|].
  split; [reflexivity|].
  split; [vm_compute; reflexivity|].
  split; [vm_compute; reflexivity|].
  split; [reflexivity|].
  split; [vm_compute; reflexivity|].
  split; [vm_compute; reflexivity|].
  reflexivity.
Qed.

(** When the clock shows the date of the updates (live trading), the same
    two updates leave the halt in place. *)
Example halt_persists_when_dates_agree :
  exists rm1 rm2,
    Risk.update_balance 100 (Risk.init 100 10000) (-300) morning = Ok rm1 /\
    Risk.update_balance 100 rm1 (-10) noon = Ok rm2 /\
    trading_halted rm2 = true /\ daily_start_balance rm2 == 10000.
Proof.
  eexists. eexists.
  split; [vm_compute; reflexivity|].
  split; [vm_compute; reflexivity|].
  split; [reflexivity | vm_compute; reflexivity].
Qed.

(** C4 fails on the code: the daily-loss check divides by the day's start
    balance without testing it.  A manager started with 100 loses 100; the
    next day's update snapshots the balance 0 as the start balance and the
    division raises [ZeroDivisionError]. *)
Theorem update_balance_zero_division :
  0 < 100 /\
  exists rm1,
    Risk.update_balance 100 (Risk.init 100 100) (-100) morning = Ok rm1 /\
    current_balance rm1 == 0 /\
    Risk.update_balance 101 rm1 (-1) next_day = Raise ZeroDivisionError.
Proof.
  split; [reflexivity|].
  eexists.
  split; [vm_compute; reflexivity|].
  split; [vm_compute; reflexivity|].
  vm_compute. reflexivity.
Qed.

(** The check fails exactly when the day's start balance is zero. *)
Lemma check_daily_loss_limit_fault (self : RiskManager) :
  Risk.check_daily_loss_limit self = Raise ZeroDivisionError <->
  daily_start_balance self == 0.
Proof.
  unfold Risk.check_daily_loss_limit, Risk.check_daily_loss_limit_on,
    div_on. split.
  - destruct (Qeqb (daily_start_balance self) 0) eqn:E.
    + intros _. now apply Qeqb_spec.
    + cbn [bind]. destruct (quotient_leb _ _); discriminate.
  - intro H. apply Qeqb_spec in H. now rewrite H.
Qed.

(** ** Performance metrics *)

Lemma fold_left_Qplus (l : list Q) :
  forall a, fold_left Qplus l a == a + fold_left Qplus l 0.
Proof.
  induction l as [|x rest IH]; intro a; cbn [fold_left].
  - ring.
  - rewrite (IH (a + x)), (IH (0 + x)). ring.
Qed.

Lemma py_sum_cons (x : Q) (l : list Q) : py_sum (x :: l) == x + py_sum l.
Proof.
  unfold py_sum. cbn [fold_left]. rewrite fold_left_Qplus. ring.
Qed.

Lemma winners_filter (log : list Trade) :
  length (filter (fun t => Qltb 0 (t_pnl t)) log) = winners log.
Proof.
  induction log as [|t rest IH]; cbn [filter winners]; [reflexivity|].
  destruct (Qltb 0 (t_pnl t)); cbn [length]; lia.
Qed.

Lemma winning_sum_filter (log : list Trade) :
  py_sum (map t_pnl (filter (fun t => Qltb 0 (t_pnl t)) log))
  == winning_sum log.
Proof.
  induction log as [|t rest IH]; cbn [filter winning_sum]; [reflexivity|].
  destruct (Qltb 0 (t_pnl t)); cbn [map].
  - rewrite py_sum_cons, IH. reflexivity.
  - rewrite IH. ring.
Qed.

Lemma losing_sum_filter (log : list Trade) :
  py_sum (map t_pnl (filter (fun t => Qleb (t_pnl t) 0) log))
  == losing_sum log.
Proof.
  induction log as [|t rest IH]; cbn [filter losing_sum]; [reflexivity|].
  destruct (Qltb 0 (t_pnl t)) eqn:E.
  - apply Qltb_spec, Qleb_false in E. rewrite E, IH. ring.
  - apply Qltb_false, Qleb_spec in E. rewrite E. cbn [map].
    rewrite py_sum_cons, IH. reflexivity.
Qed.

Lemma Qlen_cons_pos {A : Type} (x : A) (l : list A) : 0 < Qlen (x :: l).
Proof.
  unfold Qlen. replace 0 with (inject_Z 0) by reflexivity.
  rewrite <- Zlt_Qlt. cbn [length]. lia.
Qed.

Lemma py_div_ok (a b : Q) : ~ b == 0 -> py_div a b = Ok (a / b).
Proof.
  intro H. unfold py_div. apply Qeqb_false in H. now rewrite H.
Qed.

Lemma Qlen_cons_nonzero {A : Type} (x : A) (l : list A) :
  ~ Qlen (x :: l) == 0.
Proof. pose proof (Qlen_cons_pos x l). lra. Qed.

(** On a non-empty log the ratios over counts and sums never fail: only the
    drawdown and the total return can. *)
Lemma calculate_performance_metrics_shape (self : Backtester) :
  trades_log self <> [] ->
  let log := trades_log self in
  let winning_trades := filter (fun t => Qltb 0 (t_pnl t)) log in
  let losing_trades := filter (fun t => Qleb (t_pnl t) 0) log in
  let total_wins := py_sum (map t_pnl winning_trades) in
  let total_losses := Qabs (py_sum (map t_pnl losing_trades)) in
  let final_balance := current_balance (risk_manager self) in
  Backtest.calculate_performance_metrics self =
  (do max_drawdown <- Backtest.calculate_max_drawdown self;
   do ret <- py_div (final_balance - initial_balance self)
                    (initial_balance self);
   Ok [ ("total_trades"%string, Qlen log);
        ("winning_trades"%string, Qlen winning_trades);
        ("losing_trades"%string, Qlen losing_trades);
        ("win_rate"%string, Qlen winning_trades / Qlen log * 100);
        ("profit_factor"%string,
         if Qltb 0 total_losses then total_wins / total_losses else 0);
        ("max_drawdown"%string, max_drawdown);
        ("initial_balance"%string, initial_balance self);
        ("final_balance"%string, final_balance);
        ("total_return"%string, ret * 100);
        ("avg_win"%string,
         match winning_trades with
         | [] => 0
         | _ => total_wins / Qlen winning_trades
         end);
        ("avg_loss"%string,
         match losing_trades with
         | [] => 0
         | _ => total_losses / Qlen losing_trades
         end);
        ("total_pnl"%string, final_balance - initial_balance self) ]).
Proof.
  intro Hne. cbn zeta. unfold Backtest.calculate_performance_metrics.
  destruct (trades_log self) as [|t rest] eqn:Elog; [congruence|].
  rewrite <- Elog.
  assert (Hpos : Qltb 0 (Qlen (trades_log self)) = true)
    by (rewrite Elog; apply Qltb_spec, Qlen_cons_pos).
  rewrite Hpos.
  rewrite (py_div_ok _ (Qlen (trades_log self)))
    by (rewrite Elog; apply Qlen_cons_nonzero).
  cbn [bind].
  set (W := filter (fun t => Qltb 0 (t_pnl t)) (trades_log self)).
  set (L := filter (fun t => Qleb (t_pnl t) 0) (trades_log self)).
  assert (HW : match W with [] => 0 | _ => py_sum (map t_pnl W) end
               = py_sum (map t_pnl W)) by (destruct W; reflexivity).
  assert (HL : match L with [] => 0 | _ => Qabs (py_sum (map t_pnl L)) end
               = Qabs (py_sum (map t_pnl L))) by (destruct L; reflexivity).
  rewrite HW, HL.
  assert (Hpf : (if Qltb 0 (Qabs (py_sum (map t_pnl L)))
                 then py_div (py_sum (map t_pnl W))
                             (Qabs (py_sum (map t_pnl L)))
                 else Ok 0)
                = Ok (if Qltb 0 (Qabs (py_sum (map t_pnl L)))
                      then py_sum (map t_pnl W) / Qabs (py_sum (map t_pnl L))
                      else 0)).
  { destruct (Qltb 0 (Qabs (py_sum (map t_pnl L)))) eqn:E; [|reflexivity].
    apply Qltb_spec in E. apply py_div_ok. lra. }
  rewrite Hpf. cbn [bind].
  assert (Haw : match W with
                | [] => Ok 0
                | _ => py_div (py_sum (map t_pnl W)) (Qlen W)
                end
                = Ok match W with
                     | [] => 0
                     | _ => py_sum (map t_pnl W) / Qlen W
                     end).
  { destruct W as [|w W']; [reflexivity|].
    apply py_div_ok, Qlen_cons_nonzero. }
  assert (Hal : match L with
                | [] => Ok 0
                | _ => py_div (Qabs (py_sum (map t_pnl L))) (Qlen L)
                end
                = Ok match L with
                     | [] => 0
                     | _ => Qabs (py_sum (map t_pnl L)) / Qlen L
                     end).
  { destruct L as [|l L']; [reflexivity|].
    apply py_div_ok, Qlen_cons_nonzero. }
  rewrite Haw, Hal. cbn [bind]. reflexivity.
Qed.

Lemma drawdown_array_ok (equity : list Q) :
  forall running_max,
    length running_max = length equity ->
    Forall (fun m => ~ m == 0) running_max ->
    exists d, Backtest.drawdown_array equity running_max = Ok d /\
              length d = length equity.
Proof.
  induction equity as [|e es IH]; intros [|m ms] Hlen Hnz;
    cbn [length] in Hlen; try discriminate.
  - exists []. split; reflexivity.
  - inversion Hnz as [|? ? Hm Hms]; subst.
    destruct (IH ms) as (d & Hd & Hl); [lia | assumption |].
    exists ((e - m) / m * 100 :: d). cbn [Backtest.drawdown_array].
    apply Qeqb_false in Hm. rewrite Hm, Hd. cbn [bind length].
    split; [reflexivity | now rewrite Hl].
Qed.

Lemma maximum_accumulate_length (l : list Q) :
  length (Backtest.maximum_accumulate l) = length l.
Proof.
  destruct l as [|x rest]; [reflexivity|]. cbn [Backtest.maximum_accumulate].
  cbn [length]. f_equal. revert x.
  induction rest as [|y rest IH]; intro x;
    cbn [Backtest.maximum_accumulate_from length]; [reflexivity|].
  now rewrite IH.
Qed.

Lemma calculate_max_drawdown_ok (self : Backtester) :
  Forall (fun m => ~ m == 0)
         (Backtest.maximum_accumulate (equity_curve self)) ->
  exists d, Backtest.calculate_max_drawdown self = Ok d.
Proof.
  intro Hnz. unfold Backtest.calculate_max_drawdown.
  destruct (equity_curve self) as [|e es] eqn:E; [now exists 0|].
  destruct (drawdown_array_ok (e :: es) (Backtest.maximum_accumulate (e :: es)))
    as (d & Hd & Hl);
    [apply maximum_accumulate_length | assumption |].
  rewrite Hd. cbn [bind].
  destruct d as [|x d']; [discriminate|].
  eexists. reflexivity.
Qed.

(** C9: on a non-empty trade log, [win_rate] is [winners / total * 100]
    where the winners are the trades with [pnl > 0] (a zero [pnl] is a
    loser), and [profit_factor] is the sum of the winning pnls over the
    absolute value of the sum of the others, or 0 when that absolute value
    is 0.  The metrics are returned whenever the initial balance and the
    running peaks of the equity curve are not zero. *)
Theorem metrics_win_rate_profit_factor (self : Backtester) :
  trades_log self <> [] ->
  (forall m,
     Backtest.calculate_performance_metrics self = Ok m ->
     exists win_rate profit_factor,
       get "win_rate" m = Some win_rate /\
       win_rate ==
         inject_Z (Z.of_nat (winners (trades_log self)))
         / inject_Z (Z.of_nat (length (trades_log self))) * 100 /\
       get "profit_factor" m = Some profit_factor /\
       (Qabs (losing_sum (trades_log self)) == 0 -> profit_factor == 0) /\
       (~ Qabs (losing_sum (trades_log self)) == 0 ->
        profit_factor ==
          winning_sum (trades_log self)
          / Qabs (losing_sum (trades_log self)))) /\
  (~ initial_balance self == 0 ->
   Forall (fun m => ~ m == 0)
          (Backtest.maximum_accumulate (equity_curve self)) ->
   exists m, Backtest.calculate_performance_metrics self = Ok m).
Proof.
  intro Hne. rewrite (calculate_performance_metrics_shape self Hne).
  split.
  - intros m Hm.
    destruct (Backtest.calculate_max_drawdown self) as [dd|e];
      cbn [bind] in Hm; [|discriminate].
    destruct (py_div _ _) as [ret|e] in Hm; cbn [bind] in Hm; [|discriminate].
    injection Hm as <-.
    eexists. eexists.
    split; [reflexivity|]. split.
    { unfold Qlen. rewrite winners_filter. reflexivity. }
    split; [reflexivity|].
    pose proof (losing_sum_filter (trades_log self)) as HL.
    pose proof (winning_sum_filter (trades_log self)) as HW.
    set (PL := py_sum (map t_pnl (filter (fun t => Qleb (t_pnl t) 0)
                                         (trades_log self)))) in *.
    set (PW := py_sum (map t_pnl (filter (fun t => Qltb 0 (t_pnl t))
                                         (trades_log self)))) in *.
    assert (HA : Qabs PL == Qabs (losing_sum (trades_log self)))
      by (rewrite HL; reflexivity).
    assert (Hnn : 0 <= Qabs PL) by apply Qabs_nonneg.
    split; intro Hz.
    + destruct (Qltb 0 (Qabs PL)) eqn:E; [|reflexivity].
      apply Qltb_spec in E. lra.
    + destruct (Qltb 0 (Qabs PL)) eqn:E.
      * rewrite HW, HA. reflexivity.
      * apply Qltb_false in E. exfalso. apply Hz. lra.
  - intros Hib Hrm.
    destruct (calculate_max_drawdown_ok self Hrm) as (dd & Hdd).
    rewrite Hdd. cbn [bind]. rewrite py_div_ok by exact Hib. cbn [bind].
    eexists. reflexivity.
Qed.

Lemma metrics_win_rate_profit_factor_witness :
  (forall m,
     Backtest.calculate_performance_metrics sample_backtester = Ok m ->
     exists win_rate profit_factor,
       get "win_rate" m = Some win_rate /\
       win_rate ==
         inject_Z (Z.of_nat (winners (trades_log sample_backtester)))
         / inject_Z (Z.of_nat (length (trades_log sample_backtester))) * 100 /\
       get "profit_factor" m = Some profit_factor /\
       (Qabs (losing_sum (trades_log sample_backtester)) == 0 ->
        profit_factor == 0) /\
       (~ Qabs (losing_sum (trades_log sample_backtester)) == 0 ->
        profit_factor ==
          winning_sum (trades_log sample_backtester)
          / Qabs (losing_sum (trades_log sample_backtester)))) /\
  exists m, Backtest.calculate_performance_metrics sample_backtester = Ok m.
Proof.
  destruct (metrics_win_rate_profit_factor sample_backtester) as [H1 H2].
  - discriminate.
  - split; [exact H1|]. apply H2.
    + qcompare.
    + vm_compute. repeat constructor; discriminate.
Defined.

(** Gains of 30, 0 and -20: one winner in three, a profit factor of 30/20,
    and the trade with a zero pnl counted with the losers. *)
Example metrics_three_trades :
  exists m win_rate profit_factor losing,
    Backtest.calculate_performance_metrics sample_backtester = Ok m /\
    get "win_rate" m = Some win_rate /\ win_rate == 100 / 3 /\
    get "profit_factor" m = Some profit_factor /\ profit_factor == 3 / 2 /\
    get "losing_trades" m = Some losing /\ losing == 2.
Proof.
  do 4 eexists.
  split; [vm_compute; reflexivity|].
  split; [reflexivity|]. split; [vm_compute; reflexivity|].
  split; [reflexivity|]. split; [vm_compute; reflexivity|].
  split; [reflexivity|]. vm_compute; reflexivity.
Qed.

(** ** Backtest runs *)

(** C2 fails on the code: with no candle the loop runs zero times, and then
    [self.data.iloc[-1]] raises [IndexError] before any metric is
    computed. *)
Theorem run_empty_raises (today : Z) (balance : Q) :
  Backtest.run today (Backtest.init today [] balance) = Raise IndexError.
Proof. reflexivity. Qed.

(** What the empty-log branch of the metrics would have returned. *)
Example empty_log_metrics (today : Z) (balance : Q) :
  Backtest.calculate_performance_metrics (Backtest.init today [] balance)
  = Ok [ ("total_trades"%string, 0); ("win_rate"%string, 0);
         ("profit_factor"%string, 0); ("max_drawdown"%string, 0);
         ("final_balance"%string, balance); ("total_return"%string, 0);
         ("avg_win"%string, 0); ("avg_loss"%string, 0) ].
Proof. reflexivity. Qed.

Lemma ewm_mean_length (alpha : Q) (xs : list Q) :
  length (Indicators.ewm_mean alpha xs) = length xs.
Proof.
  destruct xs as [|x rest]; [reflexivity|].
  cbn [Indicators.ewm_mean length]. now rewrite ewm_from_length.
Qed.

Lemma add_emas_length (df : list candle) (short long : Z) (rows : list row) :
  Indicators.add_emas df short long = Ok rows -> length rows = length df.
Proof.
  unfold Indicators.add_emas, Indicators.calculate_ema.
  destruct (short <? 1)%Z; [discriminate|].
  destruct (long <? 1)%Z; [discriminate|].
  cbn [bind]. intro H. injection H as <-.
  rewrite length_map, !length_combine, !ewm_mean_length, length_map. lia.
Qed.

Lemma tick_equity (today : Z) (rows : list row) (i : nat) (c : row)
    (s s' : Backtester) :
  Backtest.tick today rows i c s = Ok s' ->
  equity_curve s' = equity_curve s ++ [current_balance (risk_manager s')].
Proof.
  unfold Backtest.tick.
  destruct (Strategy.update_positions_on _ _ _ _) as [[closed strat]|e];
    cbn [bind]; [|discriminate].
  destruct (Backtest.report_closed _ _ _ _ _) as [[rm log]|e];
    cbn [bind]; [|discriminate].
  destruct (Risk.can_trade rm) as [can why].
  match goal with
  | |- bind ?x _ = _ -> _ => destruct x as [strat'|e]
  end; cbn [bind]; [|discriminate].
  intro H. injection H as <-. reflexivity.
Qed.

Lemma run_loop_equity (today : Z) (rows todo : list row) :
  forall i s s',
    Backtest.run_loop today rows todo i s = Ok s' ->
    exists added,
      equity_curve s' = equity_curve s ++ added /\
      length added = length todo /\
      (todo <> [] ->
       last added 0 = current_balance (risk_manager s')).
Proof.
  induction todo as [|c rest IH]; intros i s s' H;
    cbn [Backtest.run_loop] in H.
  - injection H as <-. exists []. rewrite app_nil_r.
    repeat split; congruence.
  - destruct (Backtest.tick today rows i c s) as [s1|e] eqn:Et;
      cbn [bind] in H; [|discriminate].
    apply tick_equity in Et.
    destruct (IH _ _ _ H) as (added & Heq & Hlen & Hlast).
    exists (current_balance (risk_manager s1) :: added).
    split; [rewrite Heq, Et, <- app_assoc; reflexivity|].
    split; [cbn [length]; now rewrite Hlen|].
    intros _. destruct rest as [|c' rest'].
    + cbn [Backtest.run_loop] in H. injection H as <-.
      destruct added; [reflexivity | discriminate].
    + destruct added as [|a added']; [discriminate|].
      change (last (current_balance (risk_manager s1) :: a :: added') 0)
        with (last (a :: added') 0).
      apply Hlast. discriminate.
Qed.

Lemma run_loop_app (today : Z) (rows front back : list row) :
  forall i s,
    Backtest.run_loop today rows (front ++ back) i s =
    bind (Backtest.run_loop today rows front i s)
         (Backtest.run_loop today rows back (i + length front)).
Proof.
  induction front as [|c rest IH]; intros i s; cbn [app Backtest.run_loop].
  - cbn [bind length]. now rewrite Nat.add_0_r.
  - destruct (Backtest.tick today rows i c s) as [s1|e]; cbn [bind];
      [|reflexivity].
    rewrite IH. cbn [length]. now rewrite Nat.add_succ_r.
Qed.

(** The forced closures leave the equity curve alone. *)
Lemma calculate_max_drawdown_curve (a b : Backtester) :
  equity_curve a = equity_curve b ->
  Backtest.calculate_max_drawdown a = Backtest.calculate_max_drawdown b.
Proof.
  intro H. unfold Backtest.calculate_max_drawdown. now rewrite H.
Qed.

(** On [rising_candles] the two positions still open at the end are closed
    by force with a gain of 50: the final balance is 10050, while each of
    the 52 entries of the equity curve is 10000 and the drawdown is 0. *)
Example forced_closures_not_in_curve :
  exists m final dd bal,
    Backtest.run 200 (Backtest.init 200 rising_candles 10000)
    = Ok (m, final) /\
    length (trades_log final) = 2%nat /\
    Forall (fun t => t_exit_reason t = "Backtest End"%string)
           (trades_log final) /\
    current_balance (risk_manager final) == 10050 /\
    length (equity_curve final) = 52%nat /\
    Forall (fun e => e == 10000) (equity_curve final) /\
    get "max_drawdown" m = Some dd /\ dd == 0 /\
    get "final_balance" m = Some bal /\ bal == 10050.
Proof.
  do 4 eexists.
  split; [vm_compute; reflexivity|].
  split; [reflexivity|].
  split; [repeat constructor|].
  split; [vm_compute; reflexivity|].
  split; [reflexivity|].
  split; [repeat constructor; vm_compute; reflexivity|].
  split; [reflexivity|]. split; [vm_compute; reflexivity|].
  split; [reflexivity|]. vm_compute; reflexivity.
Qed.

(** A backtest reaches the unguarded division too.  On [crash_candles],
    replayed on day 200, three positions of 100 units each are closed on the
    last tick at a loss of 5000 each: the second closure brings the balance
    to 0, and the third one snapshots it as the day's start balance.  On the
    numpy scalars of the run the ratio -5000 / 0 is [-inf]: the run goes on,
    halted for a daily loss of "-inf%". *)
Example backtest_reaches_zero_start :
  exists m final,
    Backtest.run 200 (Backtest.init 200 crash_candles 10000)
    = Ok (m, final) /\
    length (equity_curve final) = length crash_candles /\
    daily_start_balance (risk_manager final) == 0 /\
    current_balance (risk_manager final) == - (5000) /\
    halt_reason (risk_manager final)
    = DailyLossLimitReached (Infinity false).
Proof.
  eexists. eexists. split; [vm_compute; reflexivity|].
  split; [reflexivity|]. split; [vm_compute; reflexivity|].
  split; [vm_compute; reflexivity | reflexivity].
Qed.

(** The same three closures reported with Python numbers: the third update
    raises. *)
Example three_losses_on_python_numbers :
  update_all (Risk.init 200 10000)
             [(200%Z, - (5000), noon); (200%Z, - (5000), noon);
              (200%Z, - (5000), noon)]
  = Raise ZeroDivisionError.
Proof. vm_compute. reflexivity. Qed.

(** ** Further properties of the indicators *)

Lemma smoothing_range (period : Z) :
  (1 <= period)%Z ->
  0 < Indicators.smoothing period /\ Indicators.smoothing period <= 1.
Proof.
  intro Hp. unfold Indicators.smoothing.
  assert (H1 : 1 <= inject_Z period)
    by (replace 1 with (inject_Z 1) by reflexivity; now rewrite <- Zle_Qle).
  split.
  - apply Qlt_shift_div_l; lra.
  - apply Qle_shift_div_r; lra.
Qed.

Lemma smoothing_decreasing (short long : Z) :
  (1 <= short < long)%Z ->
  Indicators.smoothing long < Indicators.smoothing short.
Proof.
  intros [H1 H2]. unfold Indicators.smoothing.
  assert (Hs : 1 <= inject_Z short)
    by (replace 1 with (inject_Z 1) by reflexivity; now rewrite <- Zle_Qle).
  assert (Hl : inject_Z short < inject_Z long) by now rewrite <- Zlt_Qlt.
  apply Qlt_shift_div_r; [lra|].
  setoid_replace (2 / (inject_Z short + 1) * (inject_Z long + 1))
    with (2 * (inject_Z long + 1) / (inject_Z short + 1))
    by (field; lra).
  apply Qlt_shift_div_l; lra.
Qed.

Lemma ewm_from_constant (alpha p : Q) (xs : list Q) :
  forall prev,
    prev == p -> Forall (fun x => x == p) xs ->
    Forall (fun v => v == p) (Indicators.ewm_from alpha prev xs).
Proof.
  induction xs as [|x rest IH]; intros prev Hp Hall;
    cbn [Indicators.ewm_from]; [constructor|].
  inversion Hall as [|? ? Hx Hrest]; subst.
  assert (Hy : (1 - alpha) * prev + alpha * x == p)
    by (rewrite Hp, Hx; ring).
  constructor; [exact Hy | apply IH; assumption].
Qed.

(** X1: the moving average of a constant series is that constant, at every
    index and for every period [> 0]. *)
Theorem calculate_ema_constant (prices : list Q) (period : Z) (p : Q) :
  (0 < period)%Z ->
  Forall (fun x => x == p) prices ->
  exists values,
    Indicators.calculate_ema prices period = Ok values /\
    Forall (fun v => v == p) values.
Proof.
  intros Hp Hall. unfold Indicators.calculate_ema.
  destruct (period <? 1)%Z eqn:E; [apply Z.ltb_lt in E; lia|].
  eexists. split; [reflexivity|].
  destruct prices as [|x0 rest]; cbn [Indicators.ewm_mean]; [constructor|].
  inversion Hall as [|? ? Hx Hrest]; subst.
  constructor; [exact Hx | now apply ewm_from_constant].
Qed.

Lemma calculate_ema_constant_witness :
  exists values,
    Indicators.calculate_ema [7; 7; 7] 20 = Ok values /\
    Forall (fun v => v == 7) values.
Proof.
  apply (calculate_ema_constant [7; 7; 7] 20 7); [lia|].
  repeat constructor.
Defined.

Lemma ewm_from_bounded (alpha lo hi : Q) (xs : list Q) :
  0 <= alpha -> alpha <= 1 ->
  forall prev,
    lo <= prev <= hi -> Forall (fun x => lo <= x <= hi) xs ->
    Forall (fun v => lo <= v <= hi) (Indicators.ewm_from alpha prev xs).
Proof.
  intros Ha0 Ha1.
  induction xs as [|x rest IH]; intros prev Hp Hall;
    cbn [Indicators.ewm_from]; [constructor|].
  inversion Hall as [|? ? Hx Hrest]; subst.
  assert (Hy : lo <= (1 - alpha) * prev + alpha * x <= hi) by (split; nra).
  constructor; [exact Hy | apply IH; assumption].
Qed.

(** X2: the moving average stays within any bounds that hold for all the
    prices: it never leaves the range of the series. *)
Theorem calculate_ema_bounded (prices : list Q) (period : Z) (lo hi : Q) :
  (0 < period)%Z ->
  Forall (fun x => lo <= x <= hi) prices ->
  exists values,
    Indicators.calculate_ema prices period = Ok values /\
    Forall (fun v => lo <= v <= hi) values.
Proof.
  intros Hp Hall. unfold Indicators.calculate_ema.
  destruct (period <? 1)%Z eqn:E; [apply Z.ltb_lt in E; lia|].
  eexists. split; [reflexivity|].
  destruct (smoothing_range period) as [Ha0 Ha1]; [lia|].
  destruct prices as [|x0 rest]; cbn [Indicators.ewm_mean]; [constructor|].
  inversion Hall as [|? ? Hx Hrest]; subst.
  constructor; [exact Hx|].
  apply ewm_from_bounded; try assumption. lra.
Qed.

Lemma calculate_ema_bounded_witness :
  exists values,
    Indicators.calculate_ema [10; 20; 40] 3 = Ok values /\
    Forall (fun v => 10 <= v <= 40) values.
Proof.
  apply (calculate_ema_bounded [10; 20; 40] 3 10 40); [lia|].
  repeat constructor; qcompare.
Defined.

Lemma ewm_from_pair (a1 a2 : Q) (xs : list Q) :
  0 < a2 -> a2 < a1 -> a1 <= 1 ->
  forall xprev y1 y2,
    y2 <= y1 -> y1 <= xprev -> Sorted Qlt (xprev :: xs) ->
    Forall2 (fun v1 v2 => v2 < v1)
            (Indicators.ewm_from a1 y1 xs) (Indicators.ewm_from a2 y2 xs).
Proof.
  intros H2 H12 H1.
  induction xs as [|x rest IH]; intros xprev y1 y2 Hy Hx Hs;
    cbn [Indicators.ewm_from]; [constructor|].
  inversion Hs as [|? ? Hs' Hhd]; subst.
  inversion Hhd as [|? ? Hlt]; subst.
  constructor.
  - nra.
  - apply (IH x); [nra | nra | exact Hs'].
Qed.

Lemma rows_of_Forall2 (R : Q -> Q -> Prop) (es el : list Q) :
  Forall2 R es el ->
  forall cs : list candle,
    Forall (fun r => R (ema_short r) (ema_long r))
           (map (fun t => mkRow (fst t) (fst (snd t)) (snd (snd t)))
                (combine cs (combine es el))).
Proof.
  induction 1 as [|e l es el Hr Hrest IH]; intros [|c cs]; cbn;
    constructor; [exact Hr | apply IH].
Qed.

(** X3: on strictly rising closes, with a short period below the long one,
    the two averages start equal (no uptrend on the first row) and every
    later row is in uptrend: the short average is strictly above the long
    one. *)
Theorem rising_closes_uptrend (df : list candle) (short long : Z)
    (rows : list row) :
  (1 <= short < long)%Z ->
  Sorted Qlt (map close df) ->
  Indicators.add_emas df short long = Ok rows ->
  Forall (fun r => Indicators.is_uptrend (ema_short r) (ema_long r) = false)
         (firstn 1 rows) /\
  Forall (fun r => Indicators.is_uptrend (ema_short r) (ema_long r) = true)
         (skipn 1 rows).
Proof.
  intros Hp Hs. unfold Indicators.add_emas, Indicators.calculate_ema.
  destruct (short <? 1)%Z eqn:E1; [apply Z.ltb_lt in E1; lia|].
  destruct (long <? 1)%Z eqn:E2; [apply Z.ltb_lt in E2; lia|].
  cbn [bind]. intro H. injection H as <-.
  destruct df as [|c0 cs]; [split; constructor|].
  cbn [map Indicators.ewm_mean combine firstn skipn fst snd].
  split.
  - constructor; [|constructor]. cbn [ema_short ema_long].
    apply Qltb_false. lra.
  - apply (rows_of_Forall2 (fun s l => Indicators.is_uptrend s l = true)).
    destruct (smoothing_range short) as [_ Hs1]; [lia|].
    destruct (smoothing_range long) as [Hl0 _]; [lia|].
    pose proof (smoothing_decreasing short long Hp) as Hdec.
    eapply Forall2_impl;
      [|apply (ewm_from_pair _ _ (map close cs) Hl0 Hdec Hs1
                             (close c0) (close c0) (close c0));
        [lra | lra | exact Hs]].
    cbn beta. intros v1 v2 Hv. now apply Qltb_spec.
Qed.

Lemma rising_closes_uptrend_witness :
  exists rows,
    Indicators.add_emas [bar 100 0 1 1; bar 100 1 2 2; bar 100 2 3 3] 2 5
    = Ok rows /\
    Forall (fun r => Indicators.is_uptrend (ema_short r) (ema_long r) = false)
           (firstn 1 rows) /\
    Forall (fun r => Indicators.is_uptrend (ema_short r) (ema_long r) = true)
           (skipn 1 rows).
Proof.
  eexists. split; [reflexivity|].
  apply (rising_closes_uptrend
           [bar 100 0 1 1; bar 100 1 2 2; bar 100 2 3 3] 2 5).
  - lia.
  - repeat constructor.
  - reflexivity.
Defined.

(** X5: around a negative level, with a positive tolerance, no price at all
    is near: the lower bound lies above the upper one. *)
Theorem is_price_near_ema_negative_never (price ema t : Q) :
  ema < 0 -> 0 < t ->
  Indicators.is_price_near_ema price ema t = false.
Proof.
  intros He Ht. unfold Indicators.is_price_near_ema.
  apply andb_false_iff.
  destruct (Qleb (ema * (1 - t)) price) eqn:E; [right | now left].
  apply Qleb_spec in E. apply Qleb_false. nra.
Qed.

Lemma is_price_near_ema_negative_never_witness :
  Indicators.is_price_near_ema (-100) (-100) (1 # 100) = false.
Proof.
  apply (is_price_near_ema_negative_never (-100) (-100) (1 # 100));
    qcompare.
Defined.

(** X6: on a non-empty frame [find_swing_low] returns the least low of a
    final stretch of the frame: its last [min lookback (length df)] rows, or
    the whole frame when [lookback] is 0 (the slice [iloc[-0:]]). *)
Theorem find_swing_low_window (df : list row) (lookback : nat) :
  df <> [] ->
  exists older window swing,
    df = older ++ window /\
    length window =
      (if (lookback =? 0)%nat then length df
       else Nat.min lookback (length df)) /\
    Indicators.find_swing_low df lookback = Ok swing /\
    is_minimum swing (map (fun r => low (r_candle r)) window).
Proof.
  intro Hne. destruct lookback as [|k].
  - destruct (series_min_spec (map (fun r => low (r_candle r)) df))
      as (swing & Hs & Hmin).
    { destruct df; [congruence | discriminate]. }
    exists [], df, swing. cbn [Nat.eqb app].
    repeat split; try apply Hmin. exact Hs.
  - cbn [Nat.eqb]. apply find_swing_low_spec; [exact Hne | lia].
Qed.

Lemma find_swing_low_window_witness :
  exists older window swing,
    three_rows = older ++ window /\
    length window =
      (if (0 =? 0)%nat then length three_rows
       else Nat.min 0 (length three_rows)) /\
    Indicators.find_swing_low three_rows 0 = Ok swing /\
    is_minimum swing (map (fun r => low (r_candle r)) window).
Proof. apply (find_swing_low_window three_rows 0). discriminate. Defined.

(** ** Further properties of positions *)

Lemma py_max_absorb (a b : Q) : py_max (py_max a b) b = py_max a b.
Proof.
  unfold py_max. destruct (Qltb a b) eqn:E.
  - assert (F : Qltb b b = false) by (apply Qltb_false; lra). now rewrite F.
  - now rewrite E.
Qed.

(** X7: repeating [update_trailing_stop] at the same price and percent
    changes nothing more: the second call leaves the position as the first
    one made it. *)
Theorem update_trailing_stop_idempotent (p : Position) (price percent : Q) :
  Pos.update_trailing_stop (Pos.update_trailing_stop p price percent)
                           price percent
  = Pos.update_trailing_stop p price percent.
Proof.
  unfold Pos.update_trailing_stop.
  destruct (Qltb (entry_price p) price) eqn:E.
  - cbn [entry_price quantity stop_loss take_profit entry_time
         highest_price]. rewrite E.
    rewrite (py_max_absorb (highest_price p) price).
    now rewrite py_max_absorb.
  - now rewrite E.
Qed.

Lemma update_trailing_stop_frame (p : Position) (price percent : Q) :
  let q := Pos.update_trailing_stop p price percent in
  entry_price q = entry_price p /\ quantity q = quantity p /\
  take_profit q = take_profit p /\ entry_time q = entry_time p /\
  highest_price p <= highest_price q /\
  (trailing_stop_active p = true -> trailing_stop_active q = true).
Proof.
  cbn zeta. unfold Pos.update_trailing_stop.
  destruct (Qltb (entry_price p) price); cbn.
  - repeat split; auto. apply py_max_ge_l.
  - repeat split; auto. lra.
Qed.

(** X8: along any sequence of [update_trailing_stop] calls the entry price,
    the quantity, the target and the entry time never change, the high-water
    mark never decreases, and the trailing flag, once set, stays set. *)
Theorem trailing_trace_frame (calls : list (Q * Q)) :
  forall p,
    Forall (fun q =>
              entry_price q = entry_price p /\ quantity q = quantity p /\
              take_profit q = take_profit p /\
              entry_time q = entry_time p /\
              highest_price p <= highest_price q /\
              (trailing_stop_active p = true ->
               trailing_stop_active q = true))
           (trailing_trace p calls).
Proof.
  induction calls as [|[price percent] rest IH]; intro p; simpl.
  - constructor; [|constructor]. repeat split; auto. lra.
  - constructor; [repeat split; auto; lra|].
    destruct (update_trailing_stop_frame p price percent)
      as (He & Hq & Ht & Htm & Hh & Ha).
    eapply Forall_impl; [|apply IH]. cbn beta.
    intros q (He' & Hq' & Ht' & Htm' & Hh' & Ha').
    repeat split; try congruence; [lra | auto].
Qed.

(** X9: with a positive trailing percent, a tick at a new high (a positive
    price above the entry, at or above the high-water mark and above the
    current stop) is never closed as "Stop Loss": the raised stop stays
    below the price. *)
Theorem new_high_is_not_stopped (p : Position) (price percent : Q) :
  0 < percent -> 0 < price ->
  entry_price p < price -> highest_price p <= price ->
  stop_loss p < price ->
  stop_loss (Pos.update_trailing_stop p price percent) < price /\
  Pos.should_exit (Pos.update_trailing_stop p price percent) price
  <> (true, "Stop Loss"%string).
Proof.
  intros Hpc Hpr He Hh Hs.
  assert (Hstop : stop_loss (Pos.update_trailing_stop p price percent)
                  < price).
  { unfold Pos.update_trailing_stop.
    apply Qltb_spec in He. rewrite He. cbn [stop_loss].
    unfold py_max.
    destruct (Qltb (highest_price p) price) eqn:E1.
    - destruct (Qltb (stop_loss p) (price * (1 - percent))); [nra | lra].
    - apply Qltb_false in E1.
      destruct (Qltb (stop_loss p) (highest_price p * (1 - percent)));
        [nra | lra]. }
  split; [exact Hstop|].
  unfold Pos.should_exit. apply Qleb_false in Hstop. rewrite Hstop.
  destruct (Qleb _ price); discriminate.
Qed.

Lemma new_high_is_not_stopped_witness :
  stop_loss (Pos.update_trailing_stop test_position 51000 (1 # 100)) < 51000
  /\
  Pos.should_exit (Pos.update_trailing_stop test_position 51000 (1 # 100))
                  51000
  <> (true, "Stop Loss"%string).
Proof.
  apply (new_high_is_not_stopped test_position 51000 (1 # 100)); qcompare.
Defined.

(** X10: with a trailing percent of zero or less, every tick in profit at a
    non-negative price closes the position as "Stop Loss": the stop is
    raised to the high-water mark or above, which is at or above the
    price. *)
Theorem non_positive_percent_stops_out (p : Position) (price percent : Q) :
  percent <= 0 -> 0 <= price -> entry_price p < price ->
  Pos.should_exit (Pos.update_trailing_stop p price percent) price
  = (true, "Stop Loss"%string).
Proof.
  intros Hpc Hpr He.
  assert (Hstop : price
                  <= stop_loss (Pos.update_trailing_stop p price percent)).
  { unfold Pos.update_trailing_stop.
    apply Qltb_spec in He. rewrite He. cbn [stop_loss].
    pose proof (py_max_ge_r (highest_price p) price) as Hh.
    pose proof (py_max_ge_r (stop_loss p)
                  (py_max (highest_price p) price * (1 - percent))) as Hm.
    nra. }
  unfold Pos.should_exit. apply Qleb_spec in Hstop. now rewrite Hstop.
Qed.

Lemma non_positive_percent_stops_out_witness :
  Pos.should_exit (Pos.update_trailing_stop test_position 51000 0) 51000
  = (true, "Stop Loss"%string).
Proof.
  apply (non_positive_percent_stops_out test_position 51000 0); qcompare.
Defined.

(** ** Further properties of the strategy *)

Lemma update_loop_on_spec (kind : numbers) (price : Q) (time : datetime)
    (todo : list Position) :
  forall closed remaining c r,
    Strategy.update_loop_on kind todo price time closed remaining
    = Ok (c, r) ->
    r = remaining
        ++ filter (fun q => negb (exits price q)) (trailed price todo) /\
    exists newc,
      c = closed ++ newc /\
      Forall2 (closes_on kind price time)
              (filter (exits price) (trailed price todo)) newc.
Proof.
  induction todo as [|p rest IH]; intros closed remaining c r H;
    cbn [Strategy.update_loop_on] in H.
  - injection H as <- <-. cbn. rewrite app_nil_r. split; [reflexivity|].
    exists []. rewrite app_nil_r. split; [reflexivity | constructor].
  - cbn [trailed map filter].
    set (q := Pos.update_trailing_stop p price TRAILING_STOP_PERCENT) in *.
    destruct (Pos.should_exit q price) as [ex why] eqn:Eq.
    assert (Hex : exits price q = ex) by (unfold exits; now rewrite Eq).
    rewrite !Hex. fold (trailed price rest). destruct ex; cbn [negb].
    + destruct (div_on kind (Pos.get_pnl q price)
                       (entry_price q * quantity q))
        as [ratio|e] eqn:Ed; cbn [bind] in H; [|discriminate].
      destruct (IH _ _ _ _ H) as (Hr & newc & Hc & Hall).
      split; [exact Hr|].
      match type of Hc with
      | _ = (_ ++ [?t]) ++ _ => exists (t :: newc)
      end.
      rewrite Hc, <- app_assoc. cbn [app].
      split; [reflexivity|]. constructor; [|exact Hall].
      unfold closes_on. cbn. rewrite Eq. cbn [snd].
      repeat split; try reflexivity. exists ratio. split; [exact Ed|].
      reflexivity.
    + destruct (IH _ _ _ _ H) as (Hr & newc & Hc & Hall).
      split; [rewrite Hr, <- app_assoc; reflexivity|].
      exists newc. split; assumption.
Qed.

Lemma update_positions_on_spec (kind : numbers) (self s' : TradingStrategy)
    (price : Q) (time : datetime) (closed : list Trade) :
  Strategy.update_positions_on kind self price time = Ok (closed, s') ->
  positions s'
  = filter (fun q => negb (exits price q)) (trailed price (positions self))
  /\
  Forall2 (closes_on kind price time)
          (filter (exits price) (trailed price (positions self))) closed /\
  closed_positions s' = closed_positions self ++ closed /\
  (length closed + length (positions s') = length (positions self))%nat.
Proof.
  unfold Strategy.update_positions_on.
  destruct (Strategy.update_loop_on _ _ _ _ _ _) as [[c r]|e] eqn:E;
    cbn [bind]; [|discriminate].
  intro H. injection H as <- <-. cbn [fst snd positions closed_positions].
  destruct (update_loop_on_spec _ _ _ _ _ _ _ _ E)
    as (Hr & newc & Hc & Hall).
  cbn [app] in Hr, Hc. subst c r.
  split; [reflexivity|]. split; [exact Hall|]. split; [reflexivity|].
  apply Forall2_length in Hall. rewrite <- Hall.
  unfold trailed. rewrite <- (length_map
    (fun p => Pos.update_trailing_stop p price TRAILING_STOP_PERCENT)
    (positions self)).
  generalize (map (fun p => Pos.update_trailing_stop p price
                              TRAILING_STOP_PERCENT) (positions self)).
  intro l. induction l as [|q l IH]; cbn [filter length]; [reflexivity|].
  destruct (exits price q); cbn [negb length]; lia.
Qed.

(** On Python numbers a division that returns has a non-zero divisor. *)
Lemma div_on_python (a b : Q) (r : quotient) :
  div_on PythonNumbers a b = Ok r -> ~ b == 0 /\ r = Finite (a / b).
Proof.
  unfold div_on. destruct (Qeqb b 0) eqn:E; [discriminate|].
  intro H. injection H as <-. apply Qeqb_false in E. auto.
Qed.

Lemma closes_on_python (price : Q) (time : datetime) (q : Position)
    (t : Trade) :
  closes_on PythonNumbers price time q t -> closes price time q t.
Proof.
  intros (H1 & H2 & H3 & H4 & (ratio & Hd & Hp) & H6 & H7 & H8).
  apply div_on_python in Hd. destruct Hd as [_ ->]. cbn [times100] in Hp.
  unfold closes. repeat split; try assumption.
  eexists. split; [exact Hp | reflexivity].
Qed.

Lemma update_positions_spec (self s' : TradingStrategy) (price : Q)
    (time : datetime) (closed : list Trade) :
  Strategy.update_positions self price time = Ok (closed, s') ->
  positions s'
  = filter (fun q => negb (exits price q)) (trailed price (positions self))
  /\
  Forall2 (closes price time)
          (filter (exits price) (trailed price (positions self))) closed /\
  closed_positions s' = closed_positions self ++ closed /\
  (length closed + length (positions s') = length (positions self))%nat.
Proof.
  intro H. apply update_positions_on_spec in H.
  destruct H as (Hp & Hc & Hl & Hn).
  repeat split; try assumption.
  eapply Forall2_impl; [|exact Hc]. apply closes_on_python.
Qed.

(** X11: a tick partitions the open positions, each with its stop trailed
    first: those that exit are returned as closed trades, in their order,
    and appended to the closed log; the others stay open, in their order. *)
Theorem update_positions_partition (self s' : TradingStrategy) (price : Q)
    (time : datetime) (closed : list Trade) :
  Strategy.update_positions self price time = Ok (closed, s') ->
  positions s'
  = filter (fun q => negb (exits price q)) (trailed price (positions self))
  /\
  Forall2 (closes price time)
          (filter (exits price) (trailed price (positions self))) closed /\
  closed_positions s' = closed_positions self ++ closed /\
  (length closed + length (positions s') = length (positions self))%nat.
Proof. apply update_positions_spec. Qed.

Lemma update_positions_partition_witness :
  exists closed s',
    Strategy.update_positions two_positions 52100 noon = Ok (closed, s') /\
    positions s'
    = filter (fun q => negb (exits 52100 q))
             (trailed 52100 (positions two_positions)) /\
    Forall2 (closes 52100 noon)
            (filter (exits 52100) (trailed 52100 (positions two_positions)))
            closed /\
    closed_positions s' = closed_positions two_positions ++ closed /\
    (length closed + length (positions s')
     = length (positions two_positions))%nat.
Proof.
  eexists. eexists. split; [vm_compute; reflexivity|].
  apply (update_positions_partition two_positions).
  vm_compute. reflexivity.
Defined.

(** At 52100 the first position is closed at its target and the second,
    entered at 52000, stays open with its stop trailed to 51579. *)
Example update_positions_two :
  exists t q s',
    Strategy.update_positions two_positions 52100 noon = Ok ([t], s') /\
    t_exit_reason t = "Take Profit"%string /\ t_pnl t == 210 /\
    positions s' = [q] /\ stop_loss q == 51579 /\
    trailing_stop_active q = true.
Proof.
  do 3 eexists. split; [vm_compute; reflexivity|].
  split; [reflexivity|]. split; [vm_compute; reflexivity|].
  split; [reflexivity|]. split; [vm_compute; reflexivity | reflexivity].
Qed.

Lemma exits_false (price : Q) (q : Position) :
  exits price q = false <-> stop_loss q < price /\ price < take_profit q.
Proof.
  unfold exits, Pos.should_exit. split.
  - destruct (Qleb price (stop_loss q)) eqn:E1; [discriminate|].
    destruct (Qleb (take_profit q) price) eqn:E2; [discriminate|].
    intros _. split; now apply Qleb_false.
  - intros [H1 H2]. apply Qleb_false in H1, H2. now rewrite H1, H2.
Qed.

Lemma exits_reason (price : Q) (q : Position) :
  exits price q = true ->
  (price <= stop_loss q /\
   snd (Pos.should_exit q price) = "Stop Loss"%string) \/
  (stop_loss q < price /\ take_profit q <= price /\
   snd (Pos.should_exit q price) = "Take Profit"%string).
Proof.
  unfold exits, Pos.should_exit.
  destruct (Qleb price (stop_loss q)) eqn:E1.
  - intros _. left. split; [now apply Qleb_spec | reflexivity].
  - destruct (Qleb (take_profit q) price) eqn:E2; [|discriminate].
    intros _. right. repeat split;
      [now apply Qleb_false | now apply Qleb_spec].
Qed.

(** X12: after a tick no position is left open at or beyond its stop or its
    target, and every trade the tick closes is closed at the tick's price
    and time with the reason "Stop Loss" or "Take Profit", a profit or loss
    of (price - entry) * quantity, and never any other reason. *)
Theorem update_positions_band (self s' : TradingStrategy) (price : Q)
    (time : datetime) (closed : list Trade) :
  Strategy.update_positions self price time = Ok (closed, s') ->
  Forall (fun q => stop_loss q < price /\ price < take_profit q)
         (positions s') /\
  Forall (fun t =>
            t_exit_price t = price /\ t_exit_time t = time /\
            t_pnl t = (price - t_entry_price t) * t_quantity t /\
            (t_exit_reason t = "Stop Loss"%string \/
             t_exit_reason t = "Take Profit"%string))
         closed.
Proof.
  intro H. destruct (update_positions_spec _ _ _ _ _ H)
    as (Hp & Hc & _ & _).
  split.
  - rewrite Hp. apply Forall_forall. intros q Hq.
    apply filter_In in Hq. destruct Hq as [_ Hq].
    apply negb_true_iff in Hq. now apply exits_false.
  - clear H Hp. revert Hc.
    generalize (trailed price (positions self)). intros l Hc.
    assert (Hl : Forall (fun q => exits price q = true)
                        (filter (exits price) l)).
    { apply Forall_forall. intros q Hq. apply filter_In in Hq. tauto. }
    revert Hc Hl. generalize (filter (exits price) l). intros fl Hc.
    induction Hc as [|q t qs ts Hqt Hrest IH]; intro Hl; [constructor|].
    inversion Hl as [|? ? Hq Hqs]; subst.
    constructor; [|apply IH; exact Hqs].
    destruct Hqt as (He & Hx & Hqn & Hpnl & _ & _ & Htm & Hr).
    split; [exact Hx|]. split; [exact Htm|].
    split; [rewrite Hpnl, He, Hqn; reflexivity|].
    rewrite Hr. destruct (exits_reason _ _ Hq) as [[_ E]|(_ & _ & E)];
      [left | right]; exact E.
Qed.

Lemma update_positions_band_witness :
  exists closed s',
    Strategy.update_positions two_positions 52100 noon = Ok (closed, s') /\
    Forall (fun q => stop_loss q < 52100 /\ 52100 < take_profit q)
           (positions s') /\
    Forall (fun t =>
              t_exit_price t = 52100 /\ t_exit_time t = noon /\
              t_pnl t = (52100 - t_entry_price t) * t_quantity t /\
              (t_exit_reason t = "Stop Loss"%string \/
               t_exit_reason t = "Take Profit"%string))
           closed.
Proof.
  eexists. eexists. split; [vm_compute; reflexivity|].
  apply (update_positions_band two_positions).
  vm_compute. reflexivity.
Defined.

Lemma update_loop_stable (kind : numbers) (price : Q) (time : datetime)
    (l : list Position) :
  Forall (fun q =>
            Pos.update_trailing_stop q price TRAILING_STOP_PERCENT = q /\
            exits price q = false) l ->
  forall closed remaining,
    Strategy.update_loop_on kind l price time closed remaining
    = Ok (closed, remaining ++ l).
Proof.
  induction 1 as [|q l [Hq Hex] Hl IH]; intros closed remaining;
    cbn [Strategy.update_loop_on].
  - now rewrite app_nil_r.
  - rewrite Hq. unfold exits in Hex.
    destruct (Pos.should_exit q price) as [ex why]. cbn [fst] in Hex.
    subst ex. rewrite IH, <- app_assoc. reflexivity.
Qed.

(** X13: a second tick at the same price closes nothing and changes
    nothing: the positions left open by the first tick are already trailed
    and inside their stop-to-target band. *)
Theorem update_positions_idempotent (self s' : TradingStrategy) (price : Q)
    (time time' : datetime) (closed : list Trade) :
  Strategy.update_positions self price time = Ok (closed, s') ->
  Strategy.update_positions s' price time' = Ok ([], s').
Proof.
  intro H. destruct (update_positions_spec _ _ _ _ _ H) as (Hp & _).
  unfold Strategy.update_positions, Strategy.update_positions_on.
  rewrite (update_loop_stable PythonNumbers price time' (positions s')).
  - cbn [bind fst snd app]. rewrite app_nil_r. now destruct s'.
  - rewrite Hp. apply Forall_forall. intros q Hq.
    apply filter_In in Hq. destruct Hq as [Hin Hex].
    apply negb_true_iff in Hex. split; [|exact Hex].
    unfold trailed in Hin. apply in_map_iff in Hin.
    destruct Hin as (p & <- & _).
    unfold Pos.update_trailing_stop.
    destruct (Qltb (entry_price p) price) eqn:E.
    + cbn [entry_price quantity stop_loss take_profit entry_time
           highest_price]. rewrite E.
      rewrite (py_max_absorb (highest_price p) price).
      now rewrite py_max_absorb.
    + now rewrite E.
Qed.

Lemma update_positions_idempotent_witness :
  exists closed s',
    Strategy.update_positions two_positions 52100 noon = Ok (closed, s') /\
    Strategy.update_positions s' 52100 next_day = Ok ([], s').
Proof.
  eexists. eexists. split; [vm_compute; reflexivity|].
  eapply (update_positions_idempotent two_positions _ 52100 noon next_day).
  vm_compute. reflexivity.
Defined.

Lemma update_loop_fault (price : Q) (time : datetime) (todo : list Position) :
  forall closed remaining,
    (Strategy.update_loop_on PythonNumbers todo price time closed remaining
     = Raise ZeroDivisionError /\
     Exists (fun q => exits price q = true /\
                      entry_price q * quantity q == 0)
            (trailed price todo)) \/
    ((exists c r,
        Strategy.update_loop_on PythonNumbers todo price time closed
                                remaining = Ok (c, r)) /\
     ~ Exists (fun q => exits price q = true /\
                        entry_price q * quantity q == 0)
              (trailed price todo)).
Proof.
  induction todo as [|p rest IH]; intros closed remaining;
    cbn [Strategy.update_loop_on trailed map].
  - right. split; [eauto|]. intro H. inversion H.
  - set (q := Pos.update_trailing_stop p price TRAILING_STOP_PERCENT).
    fold (trailed price rest).
    destruct (Pos.should_exit q price) as [ex why] eqn:Eq.
    assert (Hex : exits price q = ex) by (unfold exits; now rewrite Eq).
    destruct ex.
    + unfold div_on.
      destruct (Qeqb (entry_price q * quantity q) 0) eqn:Ez; cbn [bind].
      * left. split; [reflexivity|]. apply Exists_cons_hd.
        split; [exact Hex | now apply Qeqb_spec].
      * apply Qeqb_false in Ez.
        match goal with
        | |- context [Strategy.update_loop_on _ _ _ _ ?cl _] =>
            destruct (IH cl remaining) as [[Hr Hx] | [Hok Hx]]
        end.
        -- left. split; [exact Hr | now apply Exists_cons_tl].
        -- right. split; [exact Hok|]. intro Hc.
           inversion Hc as [? ? [_ Hz]|]; subst; tauto.
    + destruct (IH closed (remaining ++ [q])) as [[Hr Hx] | [Hok Hx]].
      * left. split; [exact Hr | now apply Exists_cons_tl].
      * right. split; [exact Hok|]. intro Hc.
        inversion Hc as [? ? [Ht _]|]; subst; [congruence | tauto].
Qed.

(** On numpy scalars a division always returns, and it returns what the
    division on Python numbers does when that one returns. *)
Lemma div_on_numpy_total (a b : Q) :
  exists r, div_on NumpyScalars a b = Ok r.
Proof. unfold div_on. destruct (Qeqb b 0); eauto. Qed.

Lemma div_on_agree (a b : Q) (r : quotient) :
  div_on PythonNumbers a b = Ok r -> div_on NumpyScalars a b = Ok r.
Proof. unfold div_on. destruct (Qeqb b 0); [discriminate | auto]. Qed.

Lemma update_loop_on_numpy_total (price : Q) (time : datetime)
    (todo : list Position) :
  forall closed remaining,
    exists c r,
      Strategy.update_loop_on NumpyScalars todo price time closed remaining
      = Ok (c, r).
Proof.
  induction todo as [|p rest IH]; intros closed remaining;
    cbn [Strategy.update_loop_on]; [eauto|].
  destruct (Pos.should_exit _ price) as [[|] why]; [|apply IH].
  destruct (div_on_numpy_total
              (Pos.get_pnl (Pos.update_trailing_stop
                              p price TRAILING_STOP_PERCENT) price)
              (entry_price (Pos.update_trailing_stop
                              p price TRAILING_STOP_PERCENT)
               * quantity (Pos.update_trailing_stop
                             p price TRAILING_STOP_PERCENT)))
    as (r & ->).
  cbn [bind]. apply IH.
Qed.

Lemma update_loop_on_agree (price : Q) (time : datetime)
    (todo : list Position) :
  forall closed remaining x,
    Strategy.update_loop_on PythonNumbers todo price time closed remaining
    = Ok x ->
    Strategy.update_loop_on NumpyScalars todo price time closed remaining
    = Ok x.
Proof.
  induction todo as [|p rest IH]; intros closed remaining x;
    cbn [Strategy.update_loop_on]; [auto|].
  destruct (Pos.should_exit _ price) as [[|] why]; [|apply IH].
  destruct (div_on PythonNumbers _ _) as [r|e] eqn:E; cbn [bind];
    [|discriminate].
  rewrite (div_on_agree _ _ _ E). cbn [bind]. apply IH.
Qed.

Lemma update_positions_on_numpy_total (self : TradingStrategy) (price : Q)
    (time : datetime) :
  exists closed s',
    Strategy.update_positions_on NumpyScalars self price time
    = Ok (closed, s').
Proof.
  unfold Strategy.update_positions_on.
  destruct (update_loop_on_numpy_total price time (positions self) [] [])
    as (c & r & ->).
  cbn [bind]. eauto.
Qed.

Lemma update_positions_on_agree (self : TradingStrategy) (price : Q)
    (time : datetime) (x : list Trade * TradingStrategy) :
  Strategy.update_positions_on PythonNumbers self price time = Ok x ->
  Strategy.update_positions_on NumpyScalars self price time = Ok x.
Proof.
  unfold Strategy.update_positions_on.
  destruct (Strategy.update_loop_on PythonNumbers _ _ _ _ _) as [cr|e] eqn:E;
    cbn [bind]; [|discriminate].
  rewrite (update_loop_on_agree _ _ _ _ _ _ E). cbn [bind]. auto.
Qed.

(** X14: called with Python numbers, [update_positions] fails, with
    [ZeroDivisionError] on the percentage of the closed trade, exactly when
    a position that exits has [entry_price * quantity = 0], and returns in
    every other case.  Called with numpy scalars, as [Backtester.run] calls
    it, it always returns, and returns what the call with Python numbers
    returns when that one does. *)
Theorem update_positions_fault (self : TradingStrategy) (price : Q)
    (time : datetime) :
  (Strategy.update_positions_on PythonNumbers self price time
   = Raise ZeroDivisionError <->
   Exists (fun q => exits price q = true /\
                    entry_price q * quantity q == 0)
          (trailed price (positions self))) /\
  (~ Exists (fun q => exits price q = true /\
                      entry_price q * quantity q == 0)
            (trailed price (positions self)) ->
   exists closed s',
     Strategy.update_positions_on PythonNumbers self price time
     = Ok (closed, s')) /\
  (exists closed s',
     Strategy.update_positions_on NumpyScalars self price time
     = Ok (closed, s')) /\
  (forall x,
     Strategy.update_positions_on PythonNumbers self price time = Ok x ->
     Strategy.update_positions_on NumpyScalars self price time = Ok x).
Proof.
  split; [|split; [|split]].
  - unfold Strategy.update_positions_on.
    destruct (update_loop_fault price time (positions self) [] [])
      as [[Hr Hx] | [(c & r & Hok) Hx]].
    + rewrite Hr. cbn [bind]. tauto.
    + rewrite Hok. cbn [bind fst snd].
      split; [discriminate | contradiction].
  - unfold Strategy.update_positions_on.
    destruct (update_loop_fault price time (positions self) [] [])
      as [[Hr Hx] | [(c & r & Hok) Hx]]; [contradiction|].
    rewrite Hok. cbn [bind fst snd]. eauto.
  - apply update_positions_on_numpy_total.
  - apply update_positions_on_agree.
Qed.

(** A position entered at price 0 (its lows are negative): the tick that
    closes it fails on Python numbers; on numpy scalars it records a profit
    of "inf" percent. *)
Example update_positions_zero_entry :
  Strategy.update_positions
    (mkStrategy [Pos.init 0 1 (-1) 2 morning] []) 3 noon
  = Raise ZeroDivisionError /\
  exists t s',
    Strategy.update_positions_on NumpyScalars
      (mkStrategy [Pos.init 0 1 (-1) 2 morning] []) 3 noon = Ok ([t], s') /\
    t_pnl_percent t = Infinity true.
Proof.
  split; [vm_compute; reflexivity|].
  eexists. eexists. split; [vm_compute; reflexivity | reflexivity].
Qed.

Lemma update_positions_fault_witness :
  exists closed s',
    Strategy.update_positions_on PythonNumbers two_positions 52100 noon
    = Ok (closed, s').
Proof.
  apply (proj1 (proj2 (update_positions_fault two_positions 52100 noon))).
  unfold trailed, two_positions. cbn [positions map]. intro H.
  apply Exists_cons in H. destruct H as [[_ Hz] | H];
    [vm_compute in Hz; discriminate|].
  apply Exists_cons in H. destruct H as [[_ Hz] | H];
    [vm_compute in Hz; discriminate|].
  apply Exists_nil in H. exact H.
Defined.

Lemma iloc_neg1_app {A : Type} (l : list A) (x : A) :
  iloc_neg1 (l ++ [x]) = Ok x.
Proof. unfold iloc_neg1. now rewrite rev_unit. Qed.

(** X15: [check_entry_signal] never fails, not even on an empty frame; it
    answers true exactly when the frame has at least [EMA_LONG] rows and its
    last row has the short average strictly above the long one and a close
    within [ENTRY_PRICE_TOLERANCE] of the short average.  No earlier row
    matters. *)
Theorem check_entry_signal_spec (self : TradingStrategy) (df : list row) :
  exists signal,
    Strategy.check_entry_signal self df = Ok signal /\
    (signal = true <->
     (EMA_LONG <= Z.of_nat (length df))%Z /\
     exists earlier latest,
       df = earlier ++ [latest] /\
       ema_long latest < ema_short latest /\
       ema_short latest * (1 - ENTRY_PRICE_TOLERANCE)
       <= close (r_candle latest) /\
       close (r_candle latest)
       <= ema_short latest * (1 + ENTRY_PRICE_TOLERANCE)).
Proof.
  unfold Strategy.check_entry_signal.
  destruct (Z.of_nat (length df) <? EMA_LONG)%Z eqn:E.
  - exists false. split; [reflexivity|]. apply Z.ltb_lt in E.
    split; [discriminate | intros [H _]; lia].
  - apply Z.ltb_ge in E.
    destruct df as [|r rest] using rev_ind;
      [unfold EMA_LONG in E; cbn in E; lia|].
    rewrite iloc_neg1_app. cbn [bind]. clear IHrest.
    eexists. split; [reflexivity|].
    unfold Indicators.is_uptrend, Indicators.is_price_near_ema.
    rewrite !andb_true_iff, Qltb_spec, !Qleb_spec. split.
    + intros (Hu & Hl & Hh). split; [exact E|].
      exists rest, r. repeat split; assumption.
    + intros (_ & earlier & latest & Hdf & Hu & Hl & Hh).
      apply app_inj_tail in Hdf. destruct Hdf as [_ <-].
      repeat split; assumption.
Qed.



(** With a negative entry price the fallback stop [entry * 0.98] lies above
    the entry, and the position's target below it. *)
Example open_position_negative_entry :
  exists p s',
    Strategy.open_position Strategy.init (-100) 10000 (1 # 100) three_rows
                           (mkDatetime 100 120) = Ok (Some p, s') /\
    entry_price p < stop_loss p /\ take_profit p < entry_price p.
Proof.
  eexists. eexists. split; [reflexivity|]. split; qcompare.
Qed.

(** ** Further properties of the risk manager *)

(** The balance measured against by the daily-loss check of an update: the
    current balance when the update resets the day, else the stored one. *)
Lemma update_balance_on_unfold (kind : numbers) (today : Z)
    (self : RiskManager) (pnl : Q) (t : datetime) :
  let reset := negb (dt_date t =? current_date self)%Z in
  let start := if reset then current_balance self
               else daily_start_balance self in
  let daily := if reset then 0 + pnl else daily_pnl self + pnl in
  Risk.update_balance_on kind today self pnl t =
  do ratio <- div_on kind daily start;
  Ok (mkRiskManager
        (rm_initial_balance self) (current_balance self + pnl) start daily
        (if reset then today else current_date self)
        (quotient_leb ratio (- MAX_DAILY_LOSS)
         || (if reset then false else trading_halted self))
        (if quotient_leb ratio (- MAX_DAILY_LOSS)
         then DailyLossLimitReached (times100 ratio)
         else if reset then NoReason else halt_reason self)).
Proof.
  cbn zeta. unfold Risk.update_balance_on, Risk.check_daily_loss_limit_on,
    Risk.reset_daily_tracking.
  destruct (negb (dt_date t =? current_date self)%Z);
    cbn [daily_pnl daily_start_balance rm_initial_balance current_balance
         current_date trading_halted halt_reason].
  - destruct (div_on kind _ _) as [ratio|e]; cbn [bind]; [|reflexivity].
    destruct (quotient_leb _ _); reflexivity.
  - destruct (div_on kind _ _) as [ratio|e]; cbn [bind]; [|reflexivity].
    destruct (quotient_leb _ _); cbn [snd orb]; [reflexivity|].
    now destruct self.
Qed.

Lemma update_balance_unfold (today : Z) (self : RiskManager) (pnl : Q)
    (t : datetime) :
  let reset := negb (dt_date t =? current_date self)%Z in
  let start := if reset then current_balance self
               else daily_start_balance self in
  let daily := if reset then 0 + pnl else daily_pnl self + pnl in
  Risk.update_balance today self pnl t =
  if Qeqb start 0 then Raise ZeroDivisionError
  else
    Ok (mkRiskManager
          (rm_initial_balance self) (current_balance self + pnl) start daily
          (if reset then today else current_date self)
          (Qleb (daily / start) (- MAX_DAILY_LOSS)
           || (if reset then false else trading_halted self))
          (if Qleb (daily / start) (- MAX_DAILY_LOSS)
           then DailyLossLimitReached (Finite (daily / start * 100))
           else if reset then NoReason else halt_reason self)).
Proof.
  cbn zeta. unfold Risk.update_balance. rewrite update_balance_on_unfold.
  cbn zeta. unfold div_on.
  destruct (Qeqb _ 0); reflexivity.
Qed.

Lemma update_balance_on_numpy_total (today : Z) (self : RiskManager)
    (pnl : Q) (t : datetime) :
  exists rm, Risk.update_balance_on NumpyScalars today self pnl t = Ok rm.
Proof.
  rewrite update_balance_on_unfold. cbn zeta.
  destruct (div_on_numpy_total
              (if negb (dt_date t =? current_date self)%Z
               then 0 + pnl else daily_pnl self + pnl)
              (if negb (dt_date t =? current_date self)%Z
               then current_balance self else daily_start_balance self))
    as (r & ->).
  cbn [bind]. eauto.
Qed.

Lemma update_balance_on_agree (today : Z) (self rm : RiskManager) (pnl : Q)
    (t : datetime) :
  Risk.update_balance_on PythonNumbers today self pnl t = Ok rm ->
  Risk.update_balance_on NumpyScalars today self pnl t = Ok rm.
Proof.
  rewrite !update_balance_on_unfold. cbn zeta.
  destruct (div_on PythonNumbers _ _) as [r|e] eqn:E; cbn [bind];
    [|discriminate].
  rewrite (div_on_agree _ _ _ E). cbn [bind]. auto.
Qed.

(** What an update does to the balances, on either kind of numbers. *)
Lemma update_balance_on_balance (kind : numbers) (today : Z)
    (self rm : RiskManager) (pnl : Q) (t : datetime) :
  Risk.update_balance_on kind today self pnl t = Ok rm ->
  current_balance rm = current_balance self + pnl /\
  rm_initial_balance rm = rm_initial_balance self.
Proof.
  rewrite update_balance_on_unfold. cbn zeta.
  destruct (div_on kind _ _) as [r|e]; cbn [bind]; [|discriminate].
  intro H. injection H as <-. cbn. auto.
Qed.

(** X17: called with Python numbers, [update_balance] fails, with
    [ZeroDivisionError], exactly when the balance it measures the day's loss
    against is zero: the current balance if the time stamp's date differs
    from the stored date (the update resets the day), the stored start
    balance otherwise; it fails in no other way.  Called with numpy
    scalars, as [Backtester.run] calls it, it always returns, returns what
    the call with Python numbers returns when that one does, and against a
    zero balance halts trading exactly when the day's figure is negative (or
    trading was halted and the day is not reset). *)
Theorem update_balance_fault (today : Z) (self : RiskManager) (pnl : Q)
    (t : datetime) :
  let reset := negb (dt_date t =? current_date self)%Z in
  let start := if reset then current_balance self
               else daily_start_balance self in
  let daily := if reset then 0 + pnl else daily_pnl self + pnl in
  (Risk.update_balance_on PythonNumbers today self pnl t
   = Raise ZeroDivisionError <->
   (dt_date t <> current_date self /\ current_balance self == 0) \/
   (dt_date t = current_date self /\ daily_start_balance self == 0)) /\
  (forall e, Risk.update_balance_on PythonNumbers today self pnl t = Raise e ->
             e = ZeroDivisionError) /\
  (~ current_balance self == 0 -> ~ daily_start_balance self == 0 ->
   exists rm, Risk.update_balance_on PythonNumbers today self pnl t = Ok rm) /\
  (exists rm,
     Risk.update_balance_on NumpyScalars today self pnl t = Ok rm /\
     current_balance rm = current_balance self + pnl /\
     (start == 0 ->
      (trading_halted rm = true <->
       daily < 0 \/ (reset = false /\ trading_halted self = true)))) /\
  (forall rm,
     Risk.update_balance_on PythonNumbers today self pnl t = Ok rm ->
     Risk.update_balance_on NumpyScalars today self pnl t = Ok rm).
Proof.
  cbn zeta. split; [|split; [|split; [|split]]].
  4: { destruct (update_balance_on_numpy_total today self pnl t) as (rm & H).
       exists rm. split; [exact H|].
       split; [apply (update_balance_on_balance _ _ _ _ _ _ H)|].
       intro Hz. rewrite update_balance_on_unfold in H. cbn zeta in H.
       unfold div_on in H. apply Qeqb_spec in Hz. rewrite Hz in H.
       cbn [bind] in H. injection H as <-. cbn [trading_halted].
       rewrite orb_true_iff.
       destruct (Qeqb (if negb (dt_date t =? current_date self)%Z
                       then 0 + pnl else daily_pnl self + pnl) 0) eqn:Ed.
       - apply Qeqb_spec in Ed. cbn [quotient_leb].
         destruct (negb (dt_date t =? current_date self)%Z);
           (split; [intros [H|H]; [discriminate | now right]
                   | intros [H|[H1 H2]]; [lra | now right]]).
       - apply Qeqb_false in Ed. cbn [quotient_leb].
         destruct (Qltb 0 _) eqn:El; cbn [negb].
         + apply Qltb_spec in El.
           destruct (negb (dt_date t =? current_date self)%Z);
             (split; [intros [H|H]; [discriminate | now right]
                     | intros [H|[H1 H2]]; [lra | now right]]).
         + apply Qltb_false in El.
           split; [intros _; left; lra | intros _; now left]. }
  4: { intros rm. apply update_balance_on_agree. }
  all: change (Risk.update_balance_on PythonNumbers today self pnl t)
         with (Risk.update_balance today self pnl t);
       rewrite update_balance_unfold; cbn zeta;
       destruct (dt_date t =? current_date self)%Z eqn:Ed; cbn [negb];
       [apply Z.eqb_eq in Ed | apply Z.eqb_neq in Ed];
       match goal with
       | |- context [Qeqb ?x 0] => destruct (Qeqb x 0) eqn:Ez
       end;
       [apply Qeqb_spec in Ez | apply Qeqb_false in Ez
       |apply Qeqb_spec in Ez | apply Qeqb_false in Ez].
  - split; [intros _; right; tauto | reflexivity].
  - split; [discriminate | intros [[H _] | [_ H]]; contradiction].
  - split; [intros _; left; tauto | reflexivity].
  - split; [discriminate | intros [[_ H] | [H _]]; contradiction].
  - intros e H. now injection H as <-.
  - discriminate.
  - intros e H. now injection H as <-.
  - discriminate.
  - intros _ H. contradiction.
  - intros _ _. eauto.
  - intros H _. contradiction.
  - intros _ _. eauto.
Qed.

(** A first loss from a zero balance: the call fails on Python numbers; on
    numpy scalars it returns and halts trading for a loss of "-inf" percent. *)
Example update_balance_zero_start :
  Risk.update_balance_on PythonNumbers 100 (Risk.init 100 0) (-5) morning
  = Raise ZeroDivisionError /\
  exists rm,
    Risk.update_balance_on NumpyScalars 100 (Risk.init 100 0) (-5) morning
    = Ok rm /\
    trading_halted rm = true /\
    halt_reason rm = DailyLossLimitReached (Infinity false).
Proof.
  split; [vm_compute; reflexivity|].
  eexists. split; [vm_compute; reflexivity|]. split; reflexivity.
Qed.

Lemma update_balance_fault_witness :
  exists rm,
    Risk.update_balance_on PythonNumbers 100 (Risk.init 100 10000) (-300)
                           morning = Ok rm.
Proof.
  apply (proj1 (proj2 (proj2 (update_balance_fault
                                100 (Risk.init 100 10000) (-300) morning))));
    qcompare.
Defined.

Lemma ratio_le_iff (x d m : Q) : 0 < d -> (x / d <= m <-> x <= m * d).
Proof.
  intro Hd. split; intro H.
  - setoid_replace x with (x / d * d) by (field; lra).
    apply Qmult_le_compat_r; lra.
  - apply Qle_shift_div_r; assumption.
Qed.

(** X18: after an update measured against a positive start balance, trading
    is halted exactly when the day's loss so far reaches [MAX_DAILY_LOSS] of
    that balance, or when the manager was halted already and the update did
    not reset the day.  On a reset the day's figure is the update's own
    profit or loss. *)
Theorem update_balance_halt_rule (today : Z) (self rm : RiskManager)
    (pnl : Q) (t : datetime) :
  Risk.update_balance today self pnl t = Ok rm ->
  (dt_date t = current_date self -> 0 < daily_start_balance self ->
   (trading_halted rm = true <->
    trading_halted self = true \/
    daily_pnl self + pnl <= - MAX_DAILY_LOSS * daily_start_balance self)) /\
  (dt_date t <> current_date self -> 0 < current_balance self ->
   (trading_halted rm = true <->
    pnl <= - MAX_DAILY_LOSS * current_balance self)).
Proof.
  rewrite update_balance_unfold. cbn zeta.
  destruct (dt_date t =? current_date self)%Z eqn:Ed; cbn [negb].
  - apply Z.eqb_eq in Ed.
    destruct (Qeqb (daily_start_balance self) 0); [discriminate|].
    intro H. injection H as <-. cbn [trading_halted].
    split; [|intros Hn; contradiction]. intros _ Hpos.
    rewrite orb_true_iff, Qleb_spec, (ratio_le_iff _ _ _ Hpos). tauto.
  - apply Z.eqb_neq in Ed.
    destruct (Qeqb (current_balance self) 0); [discriminate|].
    intro H. injection H as <-. cbn [trading_halted].
    split; [intros He; contradiction|]. intros _ Hpos.
    rewrite orb_false_r, Qleb_spec, (ratio_le_iff _ _ _ Hpos).
    split; intro H; lra.
Qed.

Lemma update_balance_halt_rule_witness :
  exists rm,
    Risk.update_balance 100 (Risk.init 100 10000) (-300) morning = Ok rm /\
    (dt_date morning = current_date (Risk.init 100 10000) ->
     0 < daily_start_balance (Risk.init 100 10000) ->
     (trading_halted rm = true <->
      trading_halted (Risk.init 100 10000) = true \/
      daily_pnl (Risk.init 100 10000) + (-300)
      <= - MAX_DAILY_LOSS * daily_start_balance (Risk.init 100 10000))) /\
    (dt_date morning <> current_date (Risk.init 100 10000) ->
     0 < current_balance (Risk.init 100 10000) ->
     (trading_halted rm = true <->
      -300 <= - MAX_DAILY_LOSS * current_balance (Risk.init 100 10000))).
Proof.
  eexists. split; [vm_compute; reflexivity|].
  apply (update_balance_halt_rule 100 (Risk.init 100 10000)).
  vm_compute. reflexivity.
Defined.

Lemma update_balance_balance (today : Z) (self rm : RiskManager) (pnl : Q)
    (t : datetime) :
  Risk.update_balance today self pnl t = Ok rm ->
  current_balance rm = current_balance self + pnl /\
  rm_initial_balance rm = rm_initial_balance self /\
  ~ daily_start_balance rm == 0.
Proof.
  rewrite update_balance_unfold. cbn zeta.
  destruct (Qeqb _ 0) eqn:Ez; [discriminate|].
  intro H. injection H as <-. cbn. apply Qeqb_false in Ez. auto.
Qed.

Lemma update_all_balance (calls : list (Z * Q * datetime)) :
  forall self rm,
    update_all self calls = Ok rm ->
    current_balance rm == current_balance self + pnl_total calls /\
    rm_initial_balance rm = rm_initial_balance self /\
    (~ daily_start_balance self == 0 -> ~ daily_start_balance rm == 0).
Proof.
  induction calls as [|[[today pnl] t] rest IH]; intros self rm H;
    cbn [update_all] in H.
  - injection H as <-. cbn. split; [ring | auto].
  - destruct (Risk.update_balance today self pnl t) as [self'|e] eqn:E;
      cbn [bind] in H; [|discriminate].
    destruct (update_balance_balance _ _ _ _ _ E) as (Hb & Hi & Hz).
    destruct (IH _ _ H) as (Hb' & Hi' & Hz').
    split; [|split].
    + rewrite Hb', Hb. unfold pnl_total. cbn [fold_right fst snd]. ring.
    + congruence.
    + auto.
Qed.

(** X19: whatever resets and halts happen on the way, after a sequence of
    updates that all return, the current balance is the balance before plus
    the sum of the profits and losses, and the initial balance is
    unchanged. *)
Theorem update_all_conserves (self rm : RiskManager)
    (calls : list (Z * Q * datetime)) :
  update_all self calls = Ok rm ->
  current_balance rm == current_balance self + pnl_total calls /\
  rm_initial_balance rm = rm_initial_balance self.
Proof.
  intro H. destruct (update_all_balance _ _ _ H) as (Hb & Hi & _). auto.
Qed.

Lemma update_all_conserves_witness :
  exists rm,
    update_all (Risk.init 200 10000)
               [(200%Z, -300, morning); (200%Z, 50, noon);
                (201%Z, 25, next_day)] = Ok rm /\
    current_balance rm
    == current_balance (Risk.init 200 10000)
       + pnl_total [(200%Z, -300, morning); (200%Z, 50, noon);
                    (201%Z, 25, next_day)] /\
    rm_initial_balance rm = rm_initial_balance (Risk.init 200 10000).
Proof.
  eexists. split; [vm_compute; reflexivity|].
  apply (update_all_conserves (Risk.init 200 10000)).
  vm_compute. reflexivity.
Defined.

(** X20: while the time stamps carry the stored date, a halt persists: after
    any sequence of such updates that return, a halted manager is still
    halted, [can_trade] refuses, and the day's start balance is the same. *)
Theorem halt_persists_on_stored_date (calls : list (Z * Q * datetime)) :
  forall self rm,
    Forall (fun c => dt_date (snd c) = current_date self) calls ->
    trading_halted self = true ->
    update_all self calls = Ok rm ->
    trading_halted rm = true /\
    fst (Risk.can_trade rm) = false /\
    daily_start_balance rm = daily_start_balance self /\
    current_date rm = current_date self.
Proof.
  induction calls as [|[[today pnl] t] rest IH]; intros self rm Hd Hh H;
    cbn [update_all] in H.
  - injection H as <-. unfold Risk.can_trade. rewrite Hh. auto.
  - destruct (Risk.update_balance today self pnl t) as [self'|e] eqn:E;
      cbn [bind] in H; [|discriminate].
    inversion Hd as [|? ? Ht Hrest]; subst. cbn [snd] in Ht.
    destruct (update_balance_same_date _ _ _ _ _ Ht E)
      as (Hs & _ & Hc & Hk).
    destruct (IH self' rm) as (H1 & H2 & H3 & H4); auto.
    { rewrite Hc. exact Hrest. }
    repeat split; congruence.
Qed.

Lemma halt_persists_on_stored_date_witness :
  exists halted rm,
    Risk.update_balance 100 (Risk.init 100 10000) (-300) morning
    = Ok halted /\
    update_all halted [(100%Z, 500, noon); (100%Z, 500, noon)] = Ok rm /\
    trading_halted rm = true /\
    fst (Risk.can_trade rm) = false /\
    daily_start_balance rm = daily_start_balance halted /\
    current_date rm = current_date halted.
Proof.
  eexists. eexists. split; [vm_compute; reflexivity|].
  split; [vm_compute; reflexivity|].
  apply (halt_persists_on_stored_date [(100%Z, 500, noon); (100%Z, 500, noon)]).
  - repeat constructor.
  - reflexivity.
  - vm_compute. reflexivity.
Defined.

(** X21: for a manager started with a non-zero balance, after any sequence
    of updates that return, [get_stats] returns too; its total profit is the
    sum of the profits and losses applied and its current balance the
    initial one plus that sum. *)
Theorem get_stats_after_updates (today : Z) (balance : Q)
    (calls : list (Z * Q * datetime)) (rm : RiskManager) :
  ~ balance == 0 ->
  update_all (Risk.init today balance) calls = Ok rm ->
  exists st,
    Risk.get_stats rm = Ok st /\
    s_total_pnl st == pnl_total calls /\
    s_current_balance st == balance + pnl_total calls /\
    s_initial_balance st = balance /\
    s_total_return_percent st == pnl_total calls / balance * 100.
Proof.
  intros Hb H. destruct (update_all_balance _ _ _ H) as (Hc & Hi & Hz).
  cbn [Risk.init current_balance rm_initial_balance daily_start_balance]
    in Hc, Hi, Hz.
  unfold Risk.get_stats. rewrite Hi.
  rewrite py_div_ok by exact Hb. cbn [bind].
  rewrite py_div_ok by (apply Hz; exact Hb). cbn [bind].
  eexists. split; [reflexivity|]. cbn.
  split; [rewrite Hc; ring|]. split; [exact Hc|]. split; [reflexivity|].
  rewrite Hc. field. exact Hb.
Qed.

Lemma get_stats_after_updates_witness :
  exists rm,
    update_all (Risk.init 200 10000)
               [(200%Z, -300, morning); (200%Z, 50, noon)] = Ok rm /\
    exists st,
      Risk.get_stats rm = Ok st /\
      s_total_pnl st
      == pnl_total [(200%Z, -300, morning); (200%Z, 50, noon)] /\
      s_current_balance st
      == 10000 + pnl_total [(200%Z, -300, morning); (200%Z, 50, noon)] /\
      s_initial_balance st = 10000 /\
      s_total_return_percent st
      == pnl_total [(200%Z, -300, morning); (200%Z, 50, noon)] / 10000 * 100.
Proof.
  eexists. split; [vm_compute; reflexivity|].
  apply (get_stats_after_updates 200 10000
           [(200%Z, -300, morning); (200%Z, 50, noon)]).
  - qcompare.
  - vm_compute. reflexivity.
Defined.

(** With a start balance of zero the report fails like the update. *)
Example get_stats_zero_start :
  Risk.get_stats (mkRiskManager 100 0 0 0 100 false NoReason)
  = Raise ZeroDivisionError.
Proof. reflexivity. Qed.

(** ** Further properties of the backtester *)

Lemma maximum_accumulate_from_spec (l : list Q) :
  forall m,
    0 < m -> Forall (fun e => 0 < e) l ->
    Forall2 (fun e r => 0 < e /\ e <= r) l
            (Backtest.maximum_accumulate_from m l).
Proof.
  induction l as [|x rest IH]; intros m Hm Hall;
    cbn [Backtest.maximum_accumulate_from]; [constructor|].
  inversion Hall as [|? ? Hx Hrest]; subst.
  destruct (Qltb m x) eqn:E.
  - constructor; [split; lra | now apply IH].
  - apply Qltb_false in E. constructor; [split; lra | now apply IH].
Qed.

Lemma drawdown_array_range (equity running_max : list Q) :
  Forall2 (fun e r => 0 < e /\ e <= r) equity running_max ->
  exists d,
    Backtest.drawdown_array equity running_max = Ok d /\
    length d = length equity /\
    Forall (fun x => - (100) < x /\ x <= 0) d.
Proof.
  induction 1 as [|e r es rs [He Her] Hrest IH].
  - exists []. repeat split; constructor.
  - destruct IH as (d & Hd & Hl & Hall).
    exists ((e - r) / r * 100 :: d). cbn [Backtest.drawdown_array].
    assert (Ez : Qeqb r 0 = false) by (apply Qeqb_false; lra).
    rewrite Ez, Hd. cbn [bind length].
    split; [reflexivity|]. split; [now rewrite Hl|].
    constructor; [|exact Hall].
    assert (H1 : -1 < (e - r) / r) by (apply Qlt_shift_div_l; lra).
    assert (H2 : (e - r) / r <= 0) by (apply Qle_shift_div_r; lra).
    split; lra.
Qed.

(** X22: on an equity curve whose entries are all positive the maximum
    drawdown is returned and lies in [0, 100): it is never negative and
    never reaches 100 percent.  On an empty curve it is 0. *)
Theorem calculate_max_drawdown_range (self : Backtester) :
  Forall (fun e => 0 < e) (equity_curve self) ->
  exists dd,
    Backtest.calculate_max_drawdown self = Ok dd /\ 0 <= dd /\ dd < 100.
Proof.
  intro Hall. unfold Backtest.calculate_max_drawdown.
  destruct (equity_curve self) as [|e es] eqn:E.
  - exists 0. split; [reflexivity | split; lra].
  - inversion Hall as [|? ? He Hes]; subst.
    destruct (drawdown_array_range (e :: es)
                (Backtest.maximum_accumulate (e :: es)))
      as (d & Hd & Hl & Hr).
    { cbn [Backtest.maximum_accumulate]. constructor; [split; lra|].
      now apply maximum_accumulate_from_spec. }
    rewrite Hd. cbn [bind].
    destruct (series_min_spec d) as (m & Hm & Hin & _).
    { destruct d; [discriminate | congruence]. }
    rewrite Hm. cbn [bind]. exists (Qabs m). split; [reflexivity|].
    rewrite Forall_forall in Hr. destruct (Hr m Hin) as [H1 H2].
    split; [apply Qabs_nonneg|].
    rewrite Qabs_neg by exact H2. lra.
Qed.

Lemma calculate_max_drawdown_range_witness :
  exists dd,
    Backtest.calculate_max_drawdown sample_backtester = Ok dd /\
    0 <= dd /\ dd < 100.
Proof.
  apply (calculate_max_drawdown_range sample_backtester).
  repeat constructor.
Defined.

(** The curve 10000, 10030, 10030, 10010 falls by 20 from its peak 10030. *)
Example calculate_max_drawdown_sample :
  exists dd,
    Backtest.calculate_max_drawdown sample_backtester = Ok dd /\
    dd == 20 / 10030 * 100.
Proof. eexists. split; [vm_compute; reflexivity | vm_compute; reflexivity]. Qed.

Lemma maximum_accumulate_from_sorted (l : list Q) :
  forall m,
    0 < m -> Sorted Qle (m :: l) ->
    Forall2 (fun e r => 0 < r /\ e == r) l
            (Backtest.maximum_accumulate_from m l).
Proof.
  induction l as [|x rest IH]; intros m Hm Hs;
    cbn [Backtest.maximum_accumulate_from]; [constructor|].
  inversion Hs as [|? ? Hs' Hhd]; subst.
  inversion Hhd as [|? ? Hle]; subst.
  destruct (Qltb m x) eqn:E.
  - apply Qltb_spec in E. constructor; [split; [lra | reflexivity]|].
    apply IH; [lra | exact Hs'].
  - apply Qltb_false in E. assert (Hx : x == m) by lra.
    constructor; [split; [lra | exact Hx]|].
    apply IH; [exact Hm|].
    inversion Hs' as [|? ? Hs'' Hhd']; subst.
    constructor; [exact Hs''|].
    inversion Hhd' as [|? ? Hle']; subst; constructor. lra.
Qed.

Lemma drawdown_array_zero (equity running_max : list Q) :
  Forall2 (fun e r => 0 < r /\ e == r) equity running_max ->
  exists d,
    Backtest.drawdown_array equity running_max = Ok d /\
    length d = length equity /\
    Forall (fun x => x == 0) d.
Proof.
  induction 1 as [|e r es rs [Hr Her] Hrest IH].
  - exists []. repeat split; constructor.
  - destruct IH as (d & Hd & Hl & Hall).
    exists ((e - r) / r * 100 :: d). cbn [Backtest.drawdown_array].
    assert (Ez : Qeqb r 0 = false) by (apply Qeqb_false; lra).
    rewrite Ez, Hd. cbn [bind length].
    split; [reflexivity|]. split; [now rewrite Hl|].
    constructor; [|exact Hall].
    rewrite Her. field. lra.
Qed.

(** X23: an equity curve that starts positive and never falls has a maximum
    drawdown of 0. *)
Theorem calculate_max_drawdown_monotone (self : Backtester) :
  Forall (fun e => 0 < e) (firstn 1 (equity_curve self)) ->
  Sorted Qle (equity_curve self) ->
  exists dd, Backtest.calculate_max_drawdown self = Ok dd /\ dd == 0.
Proof.
  intros Hpos Hs. unfold Backtest.calculate_max_drawdown.
  destruct (equity_curve self) as [|e es] eqn:E.
  - exists 0. split; reflexivity.
  - cbn [firstn] in Hpos. inversion Hpos as [|? ? He _]; subst.
    destruct (drawdown_array_zero (e :: es)
                (Backtest.maximum_accumulate (e :: es)))
      as (d & Hd & Hl & Hz).
    { cbn [Backtest.maximum_accumulate].
      constructor; [split; [lra | reflexivity]|].
      now apply maximum_accumulate_from_sorted. }
    rewrite Hd. cbn [bind].
    destruct (series_min_spec d) as (m & Hm & Hin & _).
    { destruct d; [discriminate | congruence]. }
    rewrite Hm. cbn [bind]. exists (Qabs m). split; [reflexivity|].
    rewrite Forall_forall in Hz. rewrite (Hz m Hin). reflexivity.
Qed.

Lemma calculate_max_drawdown_monotone_witness :
  exists dd,
    Backtest.calculate_max_drawdown
      (mkBacktester [] 10000 Strategy.init (Risk.init 100 10000) []
                    [10000; 10000; 10050]) = Ok dd /\ dd == 0.
Proof.
  apply (calculate_max_drawdown_monotone
           (mkBacktester [] 10000 Strategy.init (Risk.init 100 10000) []
                         [10000; 10000; 10050])).
  - repeat constructor.
  - repeat constructor; qcompare.
Defined.

Lemma py_sum_app (l l' : list Q) : py_sum (l ++ l') == py_sum l + py_sum l'.
Proof.
  unfold py_sum. rewrite fold_left_app, fold_left_Qplus. reflexivity.
Qed.

(** On the numpy scalars of a backtest the reports to the risk manager
    always return. *)
Lemma report_closed_spec (today : Z) (time : datetime) (closed : list Trade) :
  forall rm log,
    exists rm',
      Backtest.report_closed today closed time rm log
      = Ok (rm', log ++ closed) /\
      current_balance rm'
      == current_balance rm + py_sum (map t_pnl closed).
Proof.
  induction closed as [|t rest IH]; intros rm log;
    cbn [Backtest.report_closed].
  - exists rm. rewrite app_nil_r. split; [reflexivity|]. cbn. ring.
  - destruct (update_balance_on_numpy_total today rm (t_pnl t) time)
      as (rm1 & E).
    rewrite E. cbn [bind].
    destruct (update_balance_on_balance _ _ _ _ _ _ E) as (Hb & _).
    destruct (IH rm1 (log ++ [t])) as (rm' & Hr & Hc).
    exists rm'. rewrite Hr, <- app_assoc. split; [reflexivity|].
    rewrite Hc, Hb. cbn [map]. rewrite py_sum_cons. ring.
Qed.

Lemma close_remaining_spec (today : Z) (price : Q) (time : datetime)
    (ps : list Position) :
  forall rm log,
    exists rm' forced,
      Backtest.close_remaining today ps price time rm log
      = Ok (rm', log ++ forced) /\
      Forall2 (closes_at_end price time) ps forced /\
      current_balance rm'
      == current_balance rm + py_sum (map t_pnl forced).
Proof.
  induction ps as [|p rest IH]; intros rm log;
    cbn [Backtest.close_remaining].
  - exists rm, []. rewrite app_nil_r.
    split; [reflexivity|]. split; [constructor|]. cbn. ring.
  - destruct (div_on_numpy_total (Pos.get_pnl p price)
                                 (entry_price p * quantity p))
      as (ratio & Ed).
    rewrite Ed. cbn [bind].
    destruct (update_balance_on_numpy_total today rm (Pos.get_pnl p price)
                                            time) as (rm1 & E).
    rewrite E. cbn [bind].
    destruct (update_balance_on_balance _ _ _ _ _ _ E) as (Hb & _).
    match goal with
    | |- context [Backtest.close_remaining _ _ _ _ rm1 (log ++ [?t])] =>
        destruct (IH rm1 (log ++ [t])) as (rm' & forced & Hr & Hf & Hc);
        exists rm', (t :: forced)
    end.
    rewrite Hr, <- app_assoc. split; [reflexivity|].
    split.
    + constructor; [|exact Hf]. unfold closes_at_end. cbn.
      repeat split. exists ratio. split; [exact Ed | reflexivity].
    + rewrite Hc, Hb. cbn [map t_pnl]. rewrite py_sum_cons. ring.
Qed.

Lemma open_position_cap (self s' : TradingStrategy)
    (entry balance risk_percent : Q) (df : list row) (time : datetime)
    (o : option Position) :
  Strategy.open_position self entry balance risk_percent df time
  = Ok (o, s') ->
  closed_positions s' = closed_positions self /\
  ((length (positions self) <= MAX_POSITIONS)%nat ->
   (length (positions s') <= MAX_POSITIONS)%nat).
Proof.
  unfold Strategy.open_position, Strategy.can_open_position.
  destruct (length (positions self) <? MAX_POSITIONS)%nat eqn:En;
    cbn [negb].
  - apply Nat.ltb_lt in En.
    destruct (Indicators.find_swing_low df 10) as [swing|e]; cbn [bind];
      [|discriminate].
    destruct (Qleb _ 0); intro H; injection H as <- <-.
    + auto.
    + cbn [closed_positions positions]. split; [reflexivity|].
      intros _. rewrite length_app. cbn [length]. lia.
  - intro H. injection H as <- <-. auto.
Qed.

(** The entry test always returns, and a signal needs a history. *)
Lemma check_entry_signal_total (self : TradingStrategy) (df : list row) :
  exists signal,
    Strategy.check_entry_signal self df = Ok signal /\
    (signal = true -> df <> []).
Proof.
  unfold Strategy.check_entry_signal.
  destruct (Z.of_nat (length df) <? EMA_LONG)%Z eqn:E.
  - exists false. split; [reflexivity | discriminate].
  - destruct df as [|r df'].
    + apply Z.ltb_ge in E. unfold EMA_LONG in E. cbn in E. lia.
    + unfold iloc_neg1.
      destruct (rev (r :: df')) as [|x rest] eqn:Er.
      * apply (f_equal (@length row)) in Er. rewrite length_rev in Er.
        discriminate.
      * cbn [bind]. eexists. split; [reflexivity | discriminate].
Qed.

Lemma open_position_total (self : TradingStrategy)
    (entry balance risk_percent : Q) (df : list row) (time : datetime) :
  df <> [] ->
  exists opened,
    Strategy.open_position self entry balance risk_percent df time
    = Ok opened.
Proof.
  intro Hne. unfold Strategy.open_position.
  destruct (negb (Strategy.can_open_position self)); [eauto|].
  destruct (find_swing_low_spec df 10 Hne) as (_ & _ & swing & _ & _ & -> & _);
    [lia|].
  cbn [bind]. destruct (Qleb _ 0); eauto.
Qed.

(** A tick of the backtest always returns. *)
Lemma tick_total (today : Z) (rows : list row) (i : nat) (c : row)
    (s : Backtester) :
  exists s', Backtest.tick today rows i c s = Ok s'.
Proof.
  unfold Backtest.tick.
  destruct (update_positions_on_numpy_total
              (strategy s) (close (r_candle c)) (timestamp (r_candle c)))
    as (closed & strat & ->).
  cbn [bind].
  destruct (report_closed_spec today (timestamp (r_candle c)) closed
                               (risk_manager s) (trades_log s))
    as (rm & -> & _).
  cbn [bind].
  destruct (Risk.can_trade rm) as [can why].
  destruct (can && (EMA_LONG <=? Z.of_nat i)%Z); [|cbn [bind]; eauto].
  destruct (check_entry_signal_total strat (firstn (S i) rows))
    as (signal & -> & Hdf).
  cbn [bind]. destruct signal; [|cbn [bind]; eauto].
  destruct (open_position_total strat (close (r_candle c))
              (current_balance rm) RISK_PER_TRADE (firstn (S i) rows)
              (timestamp (r_candle c)) (Hdf eq_refl)) as (opened & ->).
  cbn [bind]. eauto.
Qed.

Lemma run_loop_total (today : Z) (rows todo : list row) :
  forall i s, exists s', Backtest.run_loop today rows todo i s = Ok s'.
Proof.
  induction todo as [|c rest IH]; intros i s; cbn [Backtest.run_loop];
    [eauto|].
  destruct (tick_total today rows i c s) as (s1 & ->). cbn [bind].
  apply IH.
Qed.

Lemma tick_invariant (today : Z) (rows : list row) (i : nat) (c : row)
    (start : Q) (s s' : Backtester) :
  loop_invariant start s ->
  Backtest.tick today rows i c s = Ok s' ->
  loop_invariant start s' /\ initial_balance s' = initial_balance s.
Proof.
  intros (Hlog & Hcap & Hbal). unfold Backtest.tick.
  destruct (Strategy.update_positions_on _ _ _ _) as [[closed strat]|e]
    eqn:Eu; cbn [bind]; [|discriminate].
  destruct (update_positions_on_spec _ _ _ _ _ _ Eu)
    as (_ & _ & Hcl & Hcount).
  destruct (report_closed_spec today (timestamp (r_candle c)) closed
                               (risk_manager s) (trades_log s))
    as (rm & -> & Hb).
  cbn [bind].
  destruct (Risk.can_trade rm) as [can why].
  assert (Hstrat : forall strat',
             closed_positions strat' = closed_positions strat ->
             (length (positions strat') <= MAX_POSITIONS)%nat ->
             loop_invariant start
               (mkBacktester (data s) (initial_balance s) strat' rm
                             (trades_log s ++ closed)
                             (equity_curve s ++ [current_balance rm]))).
  { intros strat' Hc Hn. unfold loop_invariant.
    cbn [trades_log strategy risk_manager].
    split; [rewrite Hc, Hcl, Hlog; reflexivity|].
    split; [exact Hn|].
    rewrite Hb, Hbal, map_app, py_sum_app. ring. }
  assert (Hn : (length (positions strat) <= MAX_POSITIONS)%nat) by lia.
  destruct (can && (EMA_LONG <=? Z.of_nat i)%Z).
  - destruct (Strategy.check_entry_signal strat _) as [[|]|e]; cbn [bind];
      [| |discriminate].
    + destruct (Strategy.open_position _ _ _ _ _ _) as [[o strat']|e] eqn:Eo;
        cbn [bind]; [|discriminate].
      destruct (open_position_cap _ _ _ _ _ _ _ _ Eo) as (Hc & Hk).
      intro H. injection H as <-. cbn [snd].
      split; [apply Hstrat; auto | reflexivity].
    + intro H. injection H as <-. split; [now apply Hstrat | reflexivity].
  - cbn [bind]. intro H. injection H as <-.
    split; [now apply Hstrat | reflexivity].
Qed.

Lemma run_loop_invariant (today : Z) (rows todo : list row) (start : Q) :
  forall i s s',
    loop_invariant start s ->
    Backtest.run_loop today rows todo i s = Ok s' ->
    loop_invariant start s' /\ initial_balance s' = initial_balance s.
Proof.
  induction todo as [|c rest IH]; intros i s s' Hinv H;
    cbn [Backtest.run_loop] in H.
  - injection H as <-. auto.
  - destruct (Backtest.tick today rows i c s) as [s1|e] eqn:Et;
      cbn [bind] in H; [|discriminate].
    destruct (tick_invariant _ _ _ _ _ _ _ Hinv Et) as (H1 & Hi1).
    destruct (IH _ _ _ H1 H) as (H2 & Hi2).
    split; [exact H2 | congruence].
Qed.

Lemma init_invariant (today : Z) (candles : list candle) (balance : Q) :
  loop_invariant balance (Backtest.init today candles balance).
Proof.
  unfold loop_invariant. cbn. repeat split; [lia | ring].
Qed.

(** X24: the main loop of a backtest always gets through its ticks, and at
    every point of it, that is after any number of ticks, the trade log
    equals the strategy's closed log, at most [MAX_POSITIONS] positions are
    open, and the balance is the initial balance plus the sum of the profits
    and losses logged. *)
Theorem run_loop_keeps_books (today : Z) (candles : list candle)
    (balance : Q) (rows todo : list row) (i : nat) :
  exists s,
    Backtest.run_loop today rows todo i (Backtest.init today candles balance)
    = Ok s /\
    trades_log s = closed_positions (strategy s) /\
    (length (positions (strategy s)) <= MAX_POSITIONS)%nat /\
    current_balance (risk_manager s)
    == balance + py_sum (map t_pnl (trades_log s)).
Proof.
  destruct (run_loop_total today rows todo i
              (Backtest.init today candles balance)) as (s & H).
  exists s. split; [exact H|].
  apply (run_loop_invariant today rows todo balance i _ _
           (init_invariant today candles balance) H).
Qed.

(** On [profit_candles] one trade is logged, closed at its target with a
    profit of 250, and the balance ends at 10250. *)
Example run_profit_candles :
  exists m final t,
    Backtest.run 200 (Backtest.init 200 profit_candles 10000)
    = Ok (m, final) /\
    trades_log final = [t] /\
    t_exit_reason t = "Take Profit"%string /\ t_pnl t == 250 /\
    current_balance (risk_manager final) == 10250.
Proof.
  do 3 eexists. split; [vm_compute; reflexivity|].
  split; [reflexivity|]. split; [reflexivity|].
  split; vm_compute; reflexivity.
Qed.

Lemma iloc_neg1_map {A B : Type} (f : A -> B) (l : list A) (x : A) :
  iloc_neg1 l = Ok x -> iloc_neg1 (map f l) = Ok (f x).
Proof.
  unfold iloc_neg1. rewrite <- map_rev.
  destruct (rev l) as [|y rest]; [discriminate|].
  intro H. now injection H as <-.
Qed.

Lemma add_emas_candles (df : list candle) (short long : Z)
    (rows : list row) :
  Indicators.add_emas df short long = Ok rows -> map r_candle rows = df.
Proof.
  unfold Indicators.add_emas, Indicators.calculate_ema.
  destruct (short <? 1)%Z; [discriminate|].
  destruct (long <? 1)%Z; [discriminate|].
  cbn [bind]. intro H. injection H as <-.
  rewrite map_map. cbn [r_candle].
  assert (Hgen : forall (cs : list candle) (es el : list Q),
             length es = length cs -> length el = length cs ->
             map (fun t : candle * (Q * Q) => fst t)
                 (combine cs (combine es el)) = cs).
  { induction cs as [|c cs IH]; intros [|e es] [|l el] H1 H2;
      cbn [length] in H1, H2; try discriminate; [reflexivity|].
    cbn [combine map fst]. f_equal. apply IH; lia. }
  apply Hgen; now rewrite ewm_mean_length, length_map.
Qed.

Lemma iloc_neg1_total {A : Type} (l : list A) :
  l <> [] -> exists x, iloc_neg1 l = Ok x.
Proof.
  intro Hne. unfold iloc_neg1. destruct (rev l) as [|x rest] eqn:Er; [|eauto].
  apply (f_equal (@length A)) in Er. rewrite length_rev in Er.
  destruct l; [congruence | discriminate].
Qed.

Lemma add_emas_total (df : list candle) :
  exists rows, Indicators.add_emas df EMA_SHORT EMA_LONG = Ok rows.
Proof. unfold Indicators.add_emas, Indicators.calculate_ema. cbn. eauto. Qed.

(** What [run] has done when it reaches its [return], on a non-empty
    series. *)
Lemma run_state_spec (today : Z) (candles : list candle) (balance : Q) :
  candles <> [] ->
  exists final after_loop rows forced last_candle,
    Indicators.add_emas candles EMA_SHORT EMA_LONG = Ok rows /\
    Backtest.run_loop today rows rows 0 (Backtest.init today candles balance)
    = Ok after_loop /\
    Backtest.run_state today (Backtest.init today candles balance)
    = Ok final /\
    iloc_neg1 candles = Ok last_candle /\
    final = mkBacktester (data after_loop) (initial_balance after_loop)
              (mkStrategy [] (closed_positions (strategy after_loop)))
              (risk_manager final) (trades_log after_loop ++ forced)
              (equity_curve after_loop) /\
    Forall2 (closes_at_end (close last_candle) (timestamp last_candle))
            (positions (strategy after_loop)) forced /\
    current_balance (risk_manager final)
    == current_balance (risk_manager after_loop)
       + py_sum (map t_pnl forced).
Proof.
  intro Hne. unfold Backtest.run_state. cbn [data Backtest.init].
  destruct (add_emas_total candles) as (rows & Erows). rewrite Erows.
  cbn [bind].
  destruct (run_loop_total today rows rows 0
              (Backtest.init today candles balance)) as (s & Eloop).
  rewrite Eloop. cbn [bind].
  destruct (iloc_neg1_total rows) as (last_row & Elast).
  { intro E. apply add_emas_length in Erows. rewrite E in Erows.
    destruct candles; [congruence | discriminate]. }
  rewrite Elast. cbn [bind].
  destruct (close_remaining_spec today (close (r_candle last_row))
              (timestamp (r_candle last_row)) (positions (strategy s))
              (risk_manager s) (trades_log s))
    as (rm & forced & Ec & Hf & Hb).
  rewrite Ec. cbn [bind fst snd].
  eexists. exists s, rows, forced, (r_candle last_row).
  split; [reflexivity|]. split; [exact Eloop|]. split; [reflexivity|].
  split.
  { rewrite <- (add_emas_candles _ _ _ _ Erows).
    now apply iloc_neg1_map. }
  split; [reflexivity|]. split; [exact Hf | exact Hb].
Qed.

(** X25: on a non-empty series [run] always reaches its [return], and then
    no position is left open; the trade log is the closed log of the
    strategy, which is the one the main loop left, followed by one
    "Backtest End" trade for each position the loop left open, in their
    order, each with the entry, the quantity and the entry time of its
    position, closed at the last candle's close and time stamp with the
    position's profit or loss at that price; and the final balance is the
    initial balance plus the sum of all logged profits and losses. *)
Theorem run_state_accounting (today : Z) (candles : list candle)
    (balance : Q) :
  candles <> [] ->
  exists final after_loop rows forced last_candle,
    Indicators.add_emas candles EMA_SHORT EMA_LONG = Ok rows /\
    Backtest.run_loop today rows rows 0 (Backtest.init today candles balance)
    = Ok after_loop /\
    Backtest.run_state today (Backtest.init today candles balance)
    = Ok final /\
    iloc_neg1 candles = Ok last_candle /\
    positions (strategy final) = [] /\
    closed_positions (strategy final)
    = closed_positions (strategy after_loop) /\
    trades_log final = closed_positions (strategy final) ++ forced /\
    Forall2 (closes_at_end (close last_candle) (timestamp last_candle))
            (positions (strategy after_loop)) forced /\
    (length forced <= MAX_POSITIONS)%nat /\
    current_balance (risk_manager final)
    == balance + py_sum (map t_pnl (trades_log final)).
Proof.
  intro Hne.
  destruct (run_state_spec today candles balance Hne)
    as (final & s & rows & forced & last_candle
        & Erows & Eloop & Erun & Elast & Hfinal & Hf & Hb).
  exists final, s, rows, forced, last_candle.
  destruct (run_loop_invariant _ _ _ _ _ _ _
              (init_invariant today candles balance) Eloop)
    as ((Hlog & Hcap & Hbal) & _).
  repeat (split; [assumption|]).
  rewrite Hfinal in Hb |- *.
  cbn [strategy positions closed_positions trades_log risk_manager] in *.
  split; [reflexivity|]. split; [reflexivity|].
  split; [now rewrite Hlog|]. split; [exact Hf|].
  split; [apply Forall2_length in Hf; lia|].
  rewrite Hb, Hbal, map_app, py_sum_app. ring.
Qed.

Lemma run_state_accounting_witness :
  exists final after_loop rows forced last_candle,
    Indicators.add_emas rising_candles EMA_SHORT EMA_LONG = Ok rows /\
    Backtest.run_loop 200 rows rows 0
                      (Backtest.init 200 rising_candles 10000)
    = Ok after_loop /\
    Backtest.run_state 200 (Backtest.init 200 rising_candles 10000)
    = Ok final /\
    iloc_neg1 rising_candles = Ok last_candle /\
    positions (strategy final) = [] /\
    closed_positions (strategy final)
    = closed_positions (strategy after_loop) /\
    trades_log final = closed_positions (strategy final) ++ forced /\
    Forall2 (closes_at_end (close last_candle) (timestamp last_candle))
            (positions (strategy after_loop)) forced /\
    (length forced <= MAX_POSITIONS)%nat /\
    current_balance (risk_manager final)
    == 10000 + py_sum (map t_pnl (trades_log final)).
Proof.
  apply (run_state_accounting 200 rising_candles 10000). discriminate.
Defined.

Lemma tick_warm_up (today : Z) (rows : list row) (i : nat) (c : row)
    (s : Backtester) :
  strategy s = Strategy.init -> (Z.of_nat i < EMA_LONG)%Z ->
  Backtest.tick today rows i c s
  = Ok (mkBacktester (data s) (initial_balance s) Strategy.init
                     (risk_manager s) (trades_log s)
                     (equity_curve s
                      ++ [current_balance (risk_manager s)])).
Proof.
  intros Hs Hi. unfold Backtest.tick. rewrite Hs.
  cbn [Strategy.update_positions_on Strategy.init positions closed_positions
       Strategy.update_loop_on bind fst snd app Backtest.report_closed].
  destruct (Risk.can_trade (risk_manager s)) as [can why].
  apply Z.leb_gt in Hi. rewrite Hi, andb_false_r. reflexivity.
Qed.

Lemma run_loop_warm_up (today : Z) (rows todo : list row) :
  forall i s,
    strategy s = Strategy.init ->
    (Z.of_nat (i + length todo) <= EMA_LONG)%Z ->
    Backtest.run_loop today rows todo i s
    = Ok (mkBacktester (data s) (initial_balance s) Strategy.init
                       (risk_manager s) (trades_log s)
                       (equity_curve s
                        ++ repeat (current_balance (risk_manager s))
                                  (length todo))).
Proof.
  induction todo as [|c rest IH]; intros i s Hs Hi;
    cbn [Backtest.run_loop length repeat].
  - rewrite app_nil_r, <- Hs. now destruct s.
  - cbn [length] in Hi. rewrite tick_warm_up by (assumption || lia).
    cbn [bind]. rewrite IH by (reflexivity || (cbn [length]; lia)).
    cbn [data initial_balance risk_manager trades_log equity_curve].
    now rewrite <- app_assoc.
Qed.

(** X26: a backtest over at most [EMA_LONG] candles (and at least one) makes
    no trade: it returns the empty-log metrics, with the initial balance as
    final balance, leaves the risk manager as it was created, and its equity
    curve holds the initial balance once per candle. *)
Theorem run_within_warm_up (today : Z) (candles : list candle)
    (balance : Q) :
  candles <> [] -> (Z.of_nat (length candles) <= EMA_LONG)%Z ->
  Backtest.run today (Backtest.init today candles balance)
  = Ok ([ ("total_trades"%string, 0); ("win_rate"%string, 0);
          ("profit_factor"%string, 0); ("max_drawdown"%string, 0);
          ("final_balance"%string, balance); ("total_return"%string, 0);
          ("avg_win"%string, 0); ("avg_loss"%string, 0) ],
        mkBacktester candles balance Strategy.init
                     (Risk.init today balance) []
                     (repeat balance (length candles))).
Proof.
  intros Hne Hlen. unfold Backtest.run, Backtest.run_state.
  cbn [data Backtest.init].
  destruct (Indicators.add_emas candles EMA_SHORT EMA_LONG) as [rows|e]
    eqn:Erows; [|discriminate].
  pose proof (add_emas_length _ _ _ _ Erows) as Hl.
  cbn [bind]. rewrite run_loop_warm_up;
    [|reflexivity | cbn [Nat.add]; rewrite Hl; exact Hlen].
  cbn [bind data initial_balance risk_manager trades_log equity_curve
       strategy app current_balance Risk.init].
  destruct (iloc_neg1 rows) as [last_row|e] eqn:El.
  - cbn [bind Strategy.init positions closed_positions
         Backtest.close_remaining fst snd]. rewrite Hl. reflexivity.
  - exfalso. unfold iloc_neg1 in El.
    destruct (rev rows) as [|x rest] eqn:Er; [|discriminate].
    apply (f_equal (@length row)) in Er. rewrite length_rev, Hl in Er.
    destruct candles; [congruence | discriminate].
Qed.

Lemma run_within_warm_up_witness :
  Backtest.run 200 (Backtest.init 200 (flat 50 100 0 100) 10000)
  = Ok ([ ("total_trades"%string, 0); ("win_rate"%string, 0);
          ("profit_factor"%string, 0); ("max_drawdown"%string, 0);
          ("final_balance"%string, 10000); ("total_return"%string, 0);
          ("avg_win"%string, 0); ("avg_loss"%string, 0) ],
        mkBacktester (flat 50 100 0 100) 10000 Strategy.init
                     (Risk.init 200 10000) []
                     (repeat 10000 (length (flat 50 100 0 100)))).
Proof.
  apply (run_within_warm_up 200 (flat 50 100 0 100) 10000).
  - discriminate.
  - vm_compute. discriminate.
Defined.

(** ** The curve of a whole backtest *)

Lemma maximum_accumulate_from_ge (l : list Q) :
  forall m, Forall (fun r => m <= r) (Backtest.maximum_accumulate_from m l).
Proof.
  induction l as [|x rest IH]; intro m;
    cbn [Backtest.maximum_accumulate_from]; [constructor|].
  destruct (Qltb m x) eqn:E.
  - apply Qltb_spec in E. constructor; [lra|].
    eapply Forall_impl; [|apply IH]. cbn beta. intros r Hr. lra.
  - constructor; [lra | apply IH].
Qed.

(** Without funds and without positions a tick changes neither the books
    nor the positions. *)
Lemma tick_no_funds (today : Z) (rows : list row) (i : nat) (c : row)
    (s s' : Backtester) :
  current_balance (risk_manager s) <= 0 ->
  positions (strategy s) = [] ->
  Backtest.tick today rows i c s = Ok s' ->
  positions (strategy s') = [] /\
  risk_manager s' = risk_manager s /\
  trades_log s' = trades_log s.
Proof.
  intros Hb Hp. unfold Backtest.tick, Strategy.update_positions_on.
  rewrite Hp.
  cbn [Strategy.update_loop_on bind fst snd Backtest.report_closed].
  unfold Risk.can_trade.
  destruct (trading_halted (risk_manager s)).
  - cbn [andb bind]. intro H. injection H as <-. cbn. auto.
  - apply Qleb_spec in Hb. rewrite Hb. cbn [andb bind].
    intro H. injection H as <-. cbn. auto.
Qed.

Lemma run_loop_no_funds (today : Z) (rows todo : list row) :
  forall i s s',
    current_balance (risk_manager s) <= 0 ->
    positions (strategy s) = [] ->
    Backtest.run_loop today rows todo i s = Ok s' ->
    positions (strategy s') = [] /\ trades_log s' = trades_log s.
Proof.
  induction todo as [|c rest IH]; intros i s s' Hb Hp H;
    cbn [Backtest.run_loop] in H.
  - injection H as <-. auto.
  - destruct (Backtest.tick today rows i c s) as [s1|e] eqn:Et;
      cbn [bind] in H; [|discriminate].
    destruct (tick_no_funds _ _ _ _ _ _ Hb Hp Et) as (Hp1 & Hr1 & Hl1).
    destruct (IH _ _ _ ltac:(rewrite Hr1; exact Hb) Hp1 H) as (Hp2 & Hl2).
    split; [exact Hp2 | congruence].
Qed.

(** The first entry of the curve is the initial balance. *)
Lemma run_loop_first_entry (today : Z) (candles : list candle)
    (balance : Q) (rows rest : list row) (c : row) (s : Backtester) :
  Backtest.run_loop today rows (c :: rest) 0
                    (Backtest.init today candles balance) = Ok s ->
  exists tl, equity_curve s = balance :: tl.
Proof.
  cbn [Backtest.run_loop].
  rewrite tick_warm_up by (reflexivity || (unfold EMA_LONG; lia)).
  cbn [bind]. intro H.
  destruct (run_loop_equity _ _ _ _ _ _ H) as (added & Heq & _).
  cbn in Heq. eauto.
Qed.

(** The metrics are returned whenever a non-empty log comes with a
    non-zero initial balance and non-zero running peaks. *)
Lemma metrics_max_drawdown (self : Backtester) :
  (trades_log self <> [] ->
   ~ initial_balance self == 0 /\
   Forall (fun m => ~ m == 0)
          (Backtest.maximum_accumulate (equity_curve self))) ->
  exists m,
    Backtest.calculate_performance_metrics self = Ok m /\
    (trades_log self = [] -> get "max_drawdown" m = Some 0) /\
    (trades_log self <> [] ->
     exists dd,
       Backtest.calculate_max_drawdown self = Ok dd /\
       get "max_drawdown" m = Some dd).
Proof.
  intro H. destruct (trades_log self) as [|t log] eqn:Elog.
  - unfold Backtest.calculate_performance_metrics. rewrite Elog.
    eexists. split; [reflexivity|].
    split; [reflexivity | congruence].
  - destruct H as (Hb & Hpeaks); [discriminate|].
    rewrite calculate_performance_metrics_shape by (rewrite Elog; discriminate).
    cbn zeta.
    destruct (calculate_max_drawdown_ok self Hpeaks) as (dd & Hdd).
    rewrite Hdd. cbn [bind]. rewrite (py_div_ok _ _ Hb). cbn [bind].
    eexists. split; [reflexivity|].
    split; [discriminate|]. intros _. exists dd. split; reflexivity.
Qed.

(** C10: on every non-empty candle series [run] returns, and the equity
    curve has one entry per candle, entry [k] being the balance at the end
    of tick [k]; it is the curve the main loop left, so the forced
    "Backtest End" closures add nothing to it and the maximum drawdown, in
    the state and in the metrics, is that of the loop's curve (0 in the
    metrics of an empty trade log). *)
Theorem equity_curve_one_entry_per_candle (today : Z) (candles : list candle)
    (balance : Q) :
  candles <> [] ->
  exists m final rows after_loop,
    Backtest.run today (Backtest.init today candles balance)
    = Ok (m, final) /\
    Indicators.add_emas candles EMA_SHORT EMA_LONG = Ok rows /\
    Backtest.run_loop today rows rows 0 (Backtest.init today candles balance)
    = Ok after_loop /\
    equity_curve final = equity_curve after_loop /\
    length (equity_curve final) = length candles /\
    (forall k, (k < length candles)%nat ->
       exists at_k,
         Backtest.run_loop today rows (firstn (S k) rows) 0
                           (Backtest.init today candles balance) = Ok at_k /\
         nth k (equity_curve final) 0
         = current_balance (risk_manager at_k)) /\
    Backtest.calculate_max_drawdown final
    = Backtest.calculate_max_drawdown after_loop /\
    (trades_log final = [] -> get "max_drawdown" m = Some 0) /\
    (trades_log final <> [] ->
     exists dd,
       Backtest.calculate_max_drawdown after_loop = Ok dd /\
       get "max_drawdown" m = Some dd).
Proof.
  intro Hne.
  destruct (run_state_spec today candles balance Hne)
    as (final & after_loop & rows & forced & last_candle
        & Erows & Eloop & Erun & _ & Hfinal & Hf & _).
  pose proof (add_emas_length _ _ _ _ Erows) as Hlen.
  assert (Hcurve : equity_curve final = equity_curve after_loop)
    by (rewrite Hfinal; reflexivity).
  assert (Hdd : Backtest.calculate_max_drawdown final
                = Backtest.calculate_max_drawdown after_loop)
    by now apply calculate_max_drawdown_curve.
  destruct (run_loop_invariant _ _ _ _ _ _ _
              (init_invariant today candles balance) Eloop) as (_ & Hinit).
  cbn [Backtest.init initial_balance] in Hinit.
  destruct (metrics_max_drawdown final) as (m & Hm & Hempty & Hlog).
  { intro Hnl.
    assert (Hpos : 0 < balance).
    { destruct (Qlt_le_dec 0 balance) as [Hp | Hp]; [exact Hp|].
      exfalso. apply Hnl.
      destruct (run_loop_no_funds
                  today rows rows 0 (Backtest.init today candles balance)
                  after_loop Hp eq_refl Eloop) as (Hps & Hl).
      rewrite Hps in Hf. inversion Hf; subst forced.
      rewrite Hfinal. cbn [trades_log]. rewrite Hl. reflexivity. }
    split.
    - rewrite Hfinal. cbn [initial_balance]. rewrite Hinit. lra.
    - rewrite Hcurve.
      destruct rows as [|c rest];
        [destruct candles; [congruence | discriminate]|].
      destruct (run_loop_first_entry _ _ _ _ _ _ _ Eloop) as (tl & ->).
      cbn [Backtest.maximum_accumulate]. constructor; [lra|].
      eapply Forall_impl; [|apply maximum_accumulate_from_ge].
      cbn beta. intros r Hr. lra. }
  exists m, final, rows, after_loop.
  split; [unfold Backtest.run; rewrite Erun; cbn [bind]; rewrite Hm;
          reflexivity|].
  split; [exact Erows|]. split; [exact Eloop|]. split; [exact Hcurve|].
  destruct (run_loop_equity _ _ _ _ _ _ Eloop) as (added & Heq & Hl & _).
  cbn [equity_curve Backtest.init app] in Heq.
  split; [rewrite Hcurve, Heq, Hl; exact Hlen|].
  split; [|split; [exact Hdd | split; [exact Hempty|]]].
  - intros k Hk. rewrite Hcurve.
    rewrite <- (firstn_skipn (S k) rows) in Eloop at 2.
    rewrite run_loop_app in Eloop.
    destruct (Backtest.run_loop today rows (firstn (S k) rows) 0 _)
      as [at_k|e] eqn:Ek; cbn [bind] in Eloop; [|discriminate].
    exists at_k. split; [reflexivity|].
    destruct (run_loop_equity _ _ _ _ _ _ Ek) as (pre & Hpre & Hlpre & Hlast).
    destruct (run_loop_equity _ _ _ _ _ _ Eloop) as (post & Hpost & _ & _).
    cbn [equity_curve Backtest.init app] in Hpre.
    rewrite Hpost, Hpre.
    assert (Hlk : length pre = S k)
      by (rewrite Hlpre, length_firstn; lia).
    rewrite app_nth1 by lia.
    rewrite <- Hlast.
    + destruct pre as [|x pre'] using rev_ind; [discriminate|].
      rewrite length_app in Hlk. cbn [length] in Hlk.
      rewrite app_nth2 by lia.
      replace (k - length pre')%nat with 0%nat by lia.
      now rewrite last_last.
    + intro E. apply (f_equal (@length row)) in E.
      rewrite length_firstn in E. cbn [length] in E. lia.
  - intro Hnl. destruct (Hlog Hnl) as (dd & H1 & H2).
    exists dd. rewrite <- Hdd. split; assumption.
Qed.

Lemma equity_curve_one_entry_per_candle_witness :
  exists m final rows after_loop,
    Backtest.run 200 (Backtest.init 200 rising_candles 10000)
    = Ok (m, final) /\
    Indicators.add_emas rising_candles EMA_SHORT EMA_LONG = Ok rows /\
    Backtest.run_loop 200 rows rows 0
                      (Backtest.init 200 rising_candles 10000)
    = Ok after_loop /\
    equity_curve final = equity_curve after_loop /\
    length (equity_curve final) = length rising_candles /\
    (forall k, (k < length rising_candles)%nat ->
       exists at_k,
         Backtest.run_loop 200 rows (firstn (S k) rows) 0
                           (Backtest.init 200 rising_candles 10000)
         = Ok at_k /\
         nth k (equity_curve final) 0
         = current_balance (risk_manager at_k)) /\
    Backtest.calculate_max_drawdown final
    = Backtest.calculate_max_drawdown after_loop /\
    (trades_log final = [] -> get "max_drawdown" m = Some 0) /\
    (trades_log final <> [] ->
     exists dd,
       Backtest.calculate_max_drawdown after_loop = Ok dd /\
       get "max_drawdown" m = Some dd).
Proof.
  apply (equity_curve_one_entry_per_candle 200 rising_candles 10000).
  discriminate.
Defined.

Lemma filter_complement_length (log : list Trade) :
  (length (filter (fun t => Qltb 0 (t_pnl t)) log)
   + length (filter (fun t => Qleb (t_pnl t) 0) log)
   = length log)%nat.
Proof.
  induction log as [|t rest IH]; cbn [filter length]; [reflexivity|].
  unfold Qltb, Qleb in *. destruct (Qle_bool (t_pnl t) 0);
    cbn [negb length]; lia.
Qed.

Lemma winning_sum_nonneg (log : list Trade) : 0 <= winning_sum log.
Proof.
  induction log as [|t rest IH]; cbn [winning_sum]; [lra|].
  destruct (Qltb 0 (t_pnl t)) eqn:E; [apply Qltb_spec in E|]; lra.
Qed.

Lemma Qlen_nonneg {A : Type} (l : list A) : 0 <= Qlen l.
Proof.
  unfold Qlen. replace 0 with (inject_Z 0) by reflexivity.
  rewrite <- Zle_Qle. lia.
Qed.

Lemma Qdiv_nonneg (a b : Q) : 0 <= a -> 0 < b -> 0 <= a / b.
Proof. intros Ha Hb. apply Qle_shift_div_l; lra. Qed.

(** X27: in the metrics of a non-empty trade log the winning and the losing
    trades add up to all the trades, the win rate lies between 0 and 100,
    and the profit factor, the average win and the average loss (reported
    as a magnitude) are never negative. *)
Theorem metrics_ranges (self : Backtester) (m : metrics) :
  trades_log self <> [] ->
  Backtest.calculate_performance_metrics self = Ok m ->
  exists total won lost win_rate profit_factor avg_win avg_loss,
    get "total_trades" m = Some total /\
    get "winning_trades" m = Some won /\
    get "losing_trades" m = Some lost /\
    get "win_rate" m = Some win_rate /\
    get "profit_factor" m = Some profit_factor /\
    get "avg_win" m = Some avg_win /\
    get "avg_loss" m = Some avg_loss /\
    won + lost == total /\
    0 <= win_rate /\ win_rate <= 100 /\
    0 <= profit_factor /\ 0 <= avg_win /\ 0 <= avg_loss.
Proof.
  intros Hne Hm. rewrite (calculate_performance_metrics_shape self Hne) in Hm.
  destruct (Backtest.calculate_max_drawdown self) as [dd|e];
    cbn [bind] in Hm; [|discriminate].
  destruct (py_div _ _) as [ret|e] in Hm; cbn [bind] in Hm; [|discriminate].
  injection Hm as <-.
  do 7 eexists. do 7 (split; [reflexivity|]).
  pose proof (filter_complement_length (trades_log self)) as Hcount.
  pose proof (winning_sum_filter (trades_log self)) as HW.
  pose proof (winning_sum_nonneg (trades_log self)) as HWn.
  set (W := filter (fun t => Qltb 0 (t_pnl t)) (trades_log self)) in *.
  set (L := filter (fun t => Qleb (t_pnl t) 0) (trades_log self)) in *.
  assert (Htot : Qlen W + Qlen L == Qlen (trades_log self)).
  { unfold Qlen. rewrite <- inject_Z_plus, <- Nat2Z.inj_add, Hcount.
    reflexivity. }
  assert (Hpos : 0 < Qlen (trades_log self)).
  { destruct (trades_log self); [congruence | apply Qlen_cons_pos]. }
  pose proof (Qlen_nonneg W) as HWl. pose proof (Qlen_nonneg L) as HLl.
  split; [exact Htot|].
  assert (Hr0 : 0 <= Qlen W / Qlen (trades_log self))
    by (apply Qdiv_nonneg; assumption).
  assert (Hr1 : Qlen W / Qlen (trades_log self) <= 1)
    by (apply Qle_shift_div_r; lra).
  split; [lra|]. split; [lra|].
  split; [|split].
  - destruct (Qltb 0 (Qabs (py_sum (map t_pnl L)))) eqn:E; [|lra].
    apply Qltb_spec in E. apply Qdiv_nonneg; lra.
  - destruct W as [|w W'] eqn:EW; [lra|].
    apply Qdiv_nonneg; [lra | apply Qlen_cons_pos].
  - destruct L as [|l L'] eqn:EL; [lra|].
    apply Qdiv_nonneg; [apply Qabs_nonneg | apply Qlen_cons_pos].
Qed.

Lemma metrics_ranges_witness :
  exists m,
    Backtest.calculate_performance_metrics sample_backtester = Ok m /\
    exists total won lost win_rate profit_factor avg_win avg_loss,
      get "total_trades" m = Some total /\
      get "winning_trades" m = Some won /\
      get "losing_trades" m = Some lost /\
      get "win_rate" m = Some win_rate /\
      get "profit_factor" m = Some profit_factor /\
      get "avg_win" m = Some avg_win /\
      get "avg_loss" m = Some avg_loss /\
      won + lost == total /\
      0 <= win_rate /\ win_rate <= 100 /\
      0 <= profit_factor /\ 0 <= avg_win /\ 0 <= avg_loss.
Proof.
  eexists. split; [vm_compute; reflexivity|].
  apply (metrics_ranges sample_backtester).
  - discriminate.
  - vm_compute. reflexivity.
Defined.

(** ** The live tick *)

Lemma process_closed_report (today : Z) (time : datetime)
    (closed : list Trade) :
  forall rm log,
    Backtest.report_closed today closed time rm log
    = bind (Bot.process_closed NumpyScalars today closed time rm)
           (fun rm' => Ok (rm', log ++ closed)).
Proof.
  induction closed as [|t rest IH]; intros rm log;
    cbn [Backtest.report_closed Bot.process_closed bind].
  - now rewrite app_nil_r.
  - destruct (Risk.update_balance_on NumpyScalars today rm (t_pnl t) time)
      as [rm1|e]; cbn [bind]; [|reflexivity].
    rewrite IH, <- app_assoc. reflexivity.
Qed.

Lemma process_closed_agree (today : Z) (time : datetime)
    (closed : list Trade) :
  forall rm rm',
    Bot.process_closed PythonNumbers today closed time rm = Ok rm' ->
    Bot.process_closed NumpyScalars today closed time rm = Ok rm'.
Proof.
  induction closed as [|t rest IH]; intros rm rm';
    cbn [Bot.process_closed]; [auto|].
  destruct (Risk.update_balance_on PythonNumbers today rm (t_pnl t) time)
    as [rm1|e] eqn:E; cbn [bind]; [|discriminate].
  rewrite (update_balance_on_agree _ _ _ _ _ E). cbn [bind]. apply IH.
Qed.

Lemma check_and_execute_trades_agree (today : Z) (self b : TradingBot)
    (df : list row) (price : Q) (time : datetime) :
  Bot.check_and_execute_trades PythonNumbers today self df price time
  = Ok b ->
  Bot.check_and_execute_trades NumpyScalars today self df price time = Ok b.
Proof.
  unfold Bot.check_and_execute_trades.
  destruct (Strategy.update_positions_on PythonNumbers _ _ _)
    as [[closed strat]|e] eqn:Eu; cbn [bind]; [|discriminate].
  rewrite (update_positions_on_agree _ _ _ _ Eu). cbn [bind].
  destruct (Bot.process_closed PythonNumbers _ _ _ _) as [rm|e] eqn:Ep;
    cbn [bind]; [|discriminate].
  rewrite (process_closed_agree _ _ _ _ _ Ep). cbn [bind]. auto.
Qed.

Lemma live_tick_numpy (today : Z) (rows : list row) (i : nat) (c : row)
    (s : Backtester) :
  (EMA_LONG <= Z.of_nat i)%Z ->
  Bot.check_and_execute_trades
    NumpyScalars today (mkBot (strategy s) (risk_manager s))
    (firstn (S i) rows) (close (r_candle c)) (timestamp (r_candle c))
  = bind (Backtest.tick today rows i c s)
         (fun s' => Ok (mkBot (strategy s') (risk_manager s'))).
Proof.
  intro Hi. unfold Bot.check_and_execute_trades, Backtest.tick.
  cbn [bot_strategy bot_risk_manager].
  destruct (Strategy.update_positions_on _ _ _ _) as [[closed strat]|e];
    cbn [bind]; [|reflexivity].
  rewrite process_closed_report.
  destruct (Bot.process_closed _ _ _ _ _) as [rm|e]; cbn [bind];
    [|reflexivity].
  destruct (Risk.can_trade rm) as [can why].
  apply Z.leb_le in Hi. rewrite Hi, andb_true_r.
  destruct can; cbn [negb bind]; [|reflexivity].
  destruct (Strategy.check_entry_signal strat _) as [[|]|e]; cbn [bind];
    [| reflexivity | reflexivity].
  destruct (Strategy.open_position _ _ _ _ _ _) as [opened|e]; cbn [bind];
    reflexivity.
Qed.

(** X28: once the warm-up is over (index at least [EMA_LONG]), a tick of the
    backtester and a tick of the live bot on the same history, price and
    time, and on numpy scalars as the backtester's, do the same to the
    strategy and to the risk manager, and fail together.  A tick of the
    live bot on Python numbers that returns has done the same too; that one
    alone can fail on a zero divisor. *)
Theorem live_tick_matches_backtest (today : Z) (rows : list row) (i : nat)
    (c : row) (s : Backtester) :
  (EMA_LONG <= Z.of_nat i)%Z ->
  Bot.check_and_execute_trades
    NumpyScalars today (mkBot (strategy s) (risk_manager s))
    (firstn (S i) rows) (close (r_candle c)) (timestamp (r_candle c))
  = bind (Backtest.tick today rows i c s)
         (fun s' => Ok (mkBot (strategy s') (risk_manager s'))) /\
  (forall b,
     Bot.check_and_execute_trades
       PythonNumbers today (mkBot (strategy s) (risk_manager s))
       (firstn (S i) rows) (close (r_candle c)) (timestamp (r_candle c))
     = Ok b ->
     bind (Backtest.tick today rows i c s)
          (fun s' => Ok (mkBot (strategy s') (risk_manager s'))) = Ok b).
Proof.
  intro Hi. split; [now apply live_tick_numpy|].
  intros b Hb. rewrite <- (live_tick_numpy today rows i c s Hi).
  now apply check_and_execute_trades_agree.
Qed.

Lemma live_tick_matches_backtest_witness :
  Bot.check_and_execute_trades
    NumpyScalars 200
    (mkBot (strategy (Backtest.init 200 profit_candles 10000))
           (risk_manager (Backtest.init 200 profit_candles 10000)))
    (firstn 51 profit_rows)
    (close (r_candle (nth 50 profit_rows (mkRow (bar 0 0 0 0) 0 0))))
    (timestamp (r_candle (nth 50 profit_rows (mkRow (bar 0 0 0 0) 0 0))))
  = bind (Backtest.tick 200 profit_rows 50
                        (nth 50 profit_rows (mkRow (bar 0 0 0 0) 0 0))
                        (Backtest.init 200 profit_candles 10000))
         (fun s' => Ok (mkBot (strategy s') (risk_manager s'))) /\
  (forall b,
     Bot.check_and_execute_trades
       PythonNumbers 200
       (mkBot (strategy (Backtest.init 200 profit_candles 10000))
              (risk_manager (Backtest.init 200 profit_candles 10000)))
       (firstn 51 profit_rows)
       (close (r_candle (nth 50 profit_rows (mkRow (bar 0 0 0 0) 0 0))))
       (timestamp (r_candle (nth 50 profit_rows (mkRow (bar 0 0 0 0) 0 0))))
     = Ok b ->
     bind (Backtest.tick 200 profit_rows 50
                         (nth 50 profit_rows (mkRow (bar 0 0 0 0) 0 0))
                         (Backtest.init 200 profit_candles 10000))
          (fun s' => Ok (mkBot (strategy s') (risk_manager s'))) = Ok b).
Proof.
  apply (live_tick_matches_backtest 200 profit_rows 50). vm_compute.
  discriminate.
Defined.

(** During the warm-up the two differ: on exactly [EMA_LONG] rows with a
    signal on the last one the live bot opens a position and the backtester,
    at index 49, does not. *)
Example live_tick_differs_in_warm_up :
  let rows :=
    match Indicators.add_emas (flat 49 100 0 100
                               ++ [bar 100 49 (199 # 2) (201 # 2)])
                              EMA_SHORT EMA_LONG with
    | Ok rows => rows
    | Raise _ => []
    end in
  let c := nth 49 rows (mkRow (bar 0 0 0 0) 0 0) in
  let s := Backtest.init 200 [] 10000 in
  (forall kind,
   exists b,
     Bot.check_and_execute_trades kind 200
                                  (mkBot (strategy s) (risk_manager s))
                                  (firstn 50 rows) (close (r_candle c))
                                  (timestamp (r_candle c)) = Ok b /\
     length (positions (bot_strategy b)) = 1%nat) /\
  (exists s',
     Backtest.tick 200 rows 49 c s = Ok s' /\
     positions (strategy s') = []).
Proof.
  cbn zeta. split; [intros [|]|];
    eexists; (split; [vm_compute; reflexivity | reflexivity]).
Qed.

(** ** The moving average on rising prices *)

Lemma ewm_from_lag (alpha : Q) (xs : list Q) :
  0 <= alpha -> alpha <= 1 ->
  forall prev xprev,
    prev <= xprev -> Sorted Qle (xprev :: xs) ->
    Forall2 Qle (Indicators.ewm_from alpha prev xs) xs /\
    Sorted Qle (prev :: Indicators.ewm_from alpha prev xs).
Proof.
  intros Ha0 Ha1.
  induction xs as [|x rest IH]; intros prev xprev Hp Hs;
    cbn [Indicators.ewm_from].
  - split; repeat constructor.
  - inversion Hs as [|? ? Hs' Hhd]; subst.
    inversion Hhd as [|? ? Hle]; subst.
    destruct (IH ((1 - alpha) * prev + alpha * x) x) as (Hf & Hsorted);
      [nra | exact Hs' |].
    split.
    + constructor; [nra | exact Hf].
    + constructor; [exact Hsorted|]. constructor. nra.
Qed.

(** X4: on prices that never fall, the moving average lags: at every index
    it is at most the price, and it never falls either. *)
Theorem calculate_ema_lags (prices : list Q) (period : Z) :
  (0 < period)%Z -> Sorted Qle prices ->
  exists values,
    Indicators.calculate_ema prices period = Ok values /\
    Forall2 Qle values prices /\ Sorted Qle values.
Proof.
  intros Hp Hs. unfold Indicators.calculate_ema.
  destruct (period <? 1)%Z eqn:E; [apply Z.ltb_lt in E; lia|].
  eexists. split; [reflexivity|].
  destruct (smoothing_range period) as [Ha0 Ha1]; [lia|].
  destruct prices as [|x0 rest]; cbn [Indicators.ewm_mean];
    [split; constructor|].
  destruct (ewm_from_lag (Indicators.smoothing period) rest) with
    (prev := x0) (xprev := x0) as (Hf & Hsorted); try lra; [exact Hs|].
  split; [constructor; [lra | exact Hf] | exact Hsorted].
Qed.

Lemma calculate_ema_lags_witness :
  exists values,
    Indicators.calculate_ema [10; 20; 40] 3 = Ok values /\
    Forall2 Qle values [10; 20; 40] /\ Sorted Qle values.
Proof.
  apply (calculate_ema_lags [10; 20; 40] 3); [lia|].
  repeat constructor; qcompare.
Defined.
